(** * Nutrition dashboard (main7.py): a shallow embedding and its properties

  The dashboard reads a table of foods ([load_data]), and turns the loaded
  frame into three chart descriptions: a radar chart of the selected foods
  ([create_radar_chart]), a scatter plot of the whole table
  ([create_scatter_overview]) and a bar chart of the fifteen best sources of
  one nutrient ([create_enhanced_top_performers]).

  Numbers.  A Python float is modelled as a rational ([Q]); a float that may
  be NaN (the maximum or a quantile of an empty column, a missing cell of the
  input table) is an [option Q] whose [None] is NaN.  Rounding, infinities
  and signed zeros are outside the model.

  Strings are [string]s of one-byte characters; the model of [len] and of
  slicing therefore agrees with Python on ASCII names. *)

From Stdlib Require Import List String Ascii Bool Arith ZArith QArith Qround Qminmax Lia Lqa.
From Stdlib Require Import Sorting.Sorted Sorting.Permutation.
Import ListNotations.

Local Open Scope string_scope.
Local Open Scope Q_scope.

(** ** Python values *)

Module Py.

(** A float that may be NaN. *)
Definition float := option Q.
Definition NaN : float := None.

(** [a > b] and [a >= b] on floats: every comparison with NaN is false. *)
Definition gt (a b : float) : bool :=
  match a, b with
  | Some x, Some y => negb (Qle_bool x y)
  | _, _ => false
  end.

Definition ge (a b : float) : bool :=
  match a, b with
  | Some x, Some y => Qle_bool y x
  | _, _ => false
  end.

(** [a * b]: NaN is absorbing. *)
Definition mul (a b : float) : float :=
  match a, b with
  | Some x, Some y => Some (x * y)
  | _, _ => NaN
  end.

(** Exceptions the program meets. *)
Inductive exn : Type :=
| FileNotFoundError
| PermissionError
| IsADirectoryError
| UnicodeDecodeError
| EmptyDataError
| ParserError
| ValueError
| TypeError.

Inductive result (A : Type) : Type :=
| Ok (a : A)
| Raise (e : exn).
Arguments Ok {A} a.
Arguments Raise {A} e.

(** The builtin [max] keeps the first of its arguments that no later one
    exceeds: the running maximum is replaced only by an item that compares
    strictly greater. *)
Fixpoint max_from (cur : float) (items : list float) : float :=
  match items with
  | [] => cur
  | item :: rest => max_from (if gt item cur then item else cur) rest
  end.

(** [max(iterable)]; an empty iterable raises [ValueError]. *)
Definition max (items : list float) : result float :=
  match items with
  | [] => Raise ValueError
  | first :: rest => Ok (max_from first rest)
  end.

(** [max(a, b)] *)
Definition max2 (a b : float) : float := max_from a [b].

(** [len(s)] *)
Definition len (s : string) : nat := String.length s.

(** [s[:n]] for a non-negative [n] *)
Definition slice_to (n : nat) (s : string) : string := substring 0 n s.

(** The characters [str.strip()] removes, among the one-byte ones. *)
Definition isspace (c : ascii) : bool :=
  let n := nat_of_ascii c in
  ((9 <=? n) && (n <=? 13) || (28 <=? n) && (n <=? 32))%nat.

Fixpoint lstrip (s : string) : string :=
  match s with
  | EmptyString => EmptyString
  | String c rest => if isspace c then lstrip rest else s
  end.

(** [rstrip] walks the string once: a character is dropped when it is a
    space and everything after it has been stripped away. *)
Fixpoint rstrip (s : string) : string :=
  match s with
  | EmptyString => EmptyString
  | String c rest =>
      match rstrip rest with
      | EmptyString => if isspace c then EmptyString else String c EmptyString
      | kept => String c kept
      end
  end.

(** [s.strip()] *)
Definition strip (s : string) : string := rstrip (lstrip s).

(** [sorted(xs)] for strings *)
Fixpoint insert_str (x : string) (sorted : list string) : list string :=
  match sorted with
  | [] => [x]
  | h :: t => if String.leb x h then x :: sorted else h :: insert_str x t
  end.

Definition sorted (xs : list string) : list string :=
  fold_right insert_str [] xs.

(** [x in xs] for strings *)
Definition contains (xs : list string) (x : string) : bool :=
  existsb (String.eqb x) xs.

End Py.

(** ** The table library *)

Module Pandas.

Import Py.

(** A row as [read_csv] delivers it.  The five columns the program reads
    are fields, the four nutrient columns holding numbers; the cells of any
    further column are kept in [raw_extra].  A missing cell is NaN
    ([None]). *)
Record RawRow : Type := mkRawRow {
  raw_Food_Name : option string;
  raw_prot_g : float;
  raw_tot_fat_g : float;
  raw_tot_fib_g : float;
  raw_carb_g : float;
  raw_extra : list (option string)
}.

Record RawFrame : Type := mkRawFrame {
  raw_columns : list string;
  raw_rows : list RawRow
}.

(** A row without a missing cell. *)
Record FoodRecord : Type := mkFoodRecord {
  Food_Name : string;
  prot_g : Q;
  tot_fat_g : Q;
  tot_fib_g : Q;
  carb_g : Q;
  extra : list string
}.

(** The type [read_csv] infers for the nutrient columns: numbers when the
    file has data rows, [object_] when it has only its header row, since
    a column without any cell has no number to infer a type from. *)
Inductive Dtype : Type := float64 | object_.

Definition inferred_dtype (rs : list RawRow) : Dtype :=
  match rs with
  | [] => object_
  | _ :: _ => float64
  end.

(** A frame without a missing cell, and the type of its nutrient
    columns. *)
Record DataFrame : Type := mkDataFrame {
  columns : list string;
  rows : list FoodRecord;
  nutrient_dtype : Dtype
}.

(** All cells of a list of optional cells, when none is missing. *)
Fixpoint all_present {A : Type} (cells : list (option A)) : option (list A) :=
  match cells with
  | [] => Some []
  | None :: _ => None
  | Some c :: rest =>
      match all_present rest with
      | Some cs => Some (c :: cs)
      | None => None
      end
  end.

(** The row itself when it has no missing cell. *)
Definition notna (r : RawRow) : option FoodRecord :=
  match raw_Food_Name r, raw_prot_g r, raw_tot_fat_g r, raw_tot_fib_g r,
        raw_carb_g r, all_present (raw_extra r) with
  | Some name, Some p, Some f, Some b, Some c, Some e =>
      Some (mkFoodRecord name p f b c e)
  | _, _, _, _, _, _ => None
  end.

(** [df.dropna()] with its default arguments: a row is removed as soon as
    one of its cells, in any column, is missing; the others are kept in
    their order. *)
Fixpoint dropna_rows (rs : list RawRow) : list FoodRecord :=
  match rs with
  | [] => []
  | r :: rest =>
      match notna r with
      | Some rec => rec :: dropna_rows rest
      | None => dropna_rows rest
      end
  end.

Definition dropna (df : RawFrame) : DataFrame :=
  mkDataFrame (raw_columns df) (dropna_rows (raw_rows df))
    (inferred_dtype (raw_rows df)).

(** [df.columns = df.columns.str.strip()] *)
Definition strip_columns (df : RawFrame) : RawFrame :=
  mkRawFrame (map strip (raw_columns df)) (raw_rows df).

(** What [read_csv] finds at the path it is given: nothing, a file it
    cannot read or parse, or a table. *)
Inductive Unreadable : Type :=
| NoPermission
| IsDirectory
| BadEncoding
| EmptyFile
| BadSyntax.

Inductive Source : Type :=
| Missing
| Broken (u : Unreadable)
| Table (df : RawFrame).

Definition unreadable_exn (u : Unreadable) : exn :=
  match u with
  | NoPermission => PermissionError
  | IsDirectory => IsADirectoryError
  | BadEncoding => UnicodeDecodeError
  | EmptyFile => EmptyDataError
  | BadSyntax => ParserError
  end.

Definition read_csv (src : Source) : result RawFrame :=
  match src with
  | Missing => Raise FileNotFoundError
  | Broken u => Raise (unreadable_exn u)
  | Table df => Ok df
  end.

(** [s.isin(values)] at one cell *)
Definition isin (values : list string) (cell : string) : bool :=
  contains values cell.

(** The running maximum and minimum of a scan: the value held is replaced
    only by a strictly larger (smaller) cell. *)
Definition larger (m y : Q) : Q := if Qle_bool y m then m else y.

Definition smaller (m y : Q) : Q := if Qle_bool m y then m else y.

(** [s.max()]: the largest cell, NaN for an empty column. *)
Definition series_max (s : list Q) : float :=
  match s with
  | [] => NaN
  | x :: rest => Some (fold_left larger rest x)
  end.

(** [s.min()]: the smallest cell, NaN for an empty column. *)
Definition series_min (s : list Q) : float :=
  match s with
  | [] => NaN
  | x :: rest => Some (fold_left smaller rest x)
  end.

(** [s.unique()]: the distinct cells in the order of their first
    appearance. *)
Fixpoint unique_from (seen xs : list string) : list string :=
  match xs with
  | [] => []
  | x :: rest =>
      if contains seen x then unique_from seen rest
      else x :: unique_from (x :: seen) rest
  end.

Definition unique (xs : list string) : list string := unique_from [] xs.

(** [s.round(1)]: to the nearest tenth, a tie to the even one. *)
Definition round1 (x : Q) : Q :=
  let scaled := x * 10 in
  let lo := Qfloor scaled in
  let frac := scaled - inject_Z lo in
  let n :=
    if Qle_bool frac (1 # 2) then
      if Qeq_bool frac (1 # 2) then (if Z.even lo then lo else lo + 1)%Z
      else lo
    else (lo + 1)%Z in
  inject_Z n / 10.

(** [df.sort_values(col, ascending=False)]: rows by decreasing [col], rows
    with equal cells in the order they had. *)
Fixpoint insert_desc (col : FoodRecord -> Q) (r : FoodRecord)
    (sorted : list FoodRecord) : list FoodRecord :=
  match sorted with
  | [] => [r]
  | h :: t =>
      if Qle_bool (col h) (col r) then r :: sorted
      else h :: insert_desc col r t
  end.

Definition sort_values_desc (col : FoodRecord -> Q) (rs : list FoodRecord)
    : list FoodRecord :=
  fold_right (insert_desc col) [] rs.

(** [df.nlargest(n, col)]: the first [n] rows of the frame ordered by
    decreasing [col]; among equal cells the earlier row comes first
    ([keep='first']).  The method checks the type of the column before
    anything else and refuses a column of type [object_] with
    [TypeError], also when the frame has no row. *)
Definition nlargest (n : nat) (col : FoodRecord -> Q) (df : DataFrame)
    : result DataFrame :=
  match nutrient_dtype df with
  | object_ => Raise TypeError
  | float64 =>
      Ok (mkDataFrame (columns df)
            (firstn n (sort_values_desc col (rows df))) float64)
  end.

(** [s.sort_values()] on a column of numbers *)
Fixpoint insert_asc (x : Q) (sorted : list Q) : list Q :=
  match sorted with
  | [] => [x]
  | h :: t => if Qle_bool x h then x :: sorted else h :: insert_asc x t
  end.

Definition sort_values (s : list Q) : list Q := fold_right insert_asc [] s.

(** [s.quantile(q)] with the default linear interpolation: on the sorted
    column [a] of [n] cells the quantile sits at position [q * (n - 1)],
    between the cells around that position; NaN for an empty column. *)
Definition quantile (s : list Q) (q : Q) : float :=
  match sort_values s with
  | [] => NaN
  | (a0 :: _) as a =>
      let n := Z.of_nat (List.length a) in
      let pos := q * inject_Z (n - 1) in
      let lo := Qfloor pos in
      let frac := pos - inject_Z lo in
      let lower := nth (Z.to_nat lo) a a0 in
      let upper := nth (Z.to_nat lo + 1) a lower in
      Some (lower + (upper - lower) * frac)
  end.

End Pandas.

(** ** The chart library *)

Module Plotly.

Import Py.

(** The three kinds of trace the program draws.  Of the attributes the
    program sets, those that carry data or select a behaviour are kept;
    fonts, grid colours and margins are not. *)
Record Scatterpolar : Type := mkScatterpolar {
  polar_r : list Q;
  polar_theta : list string;
  polar_fill : string;
  polar_name : string;
  polar_line_color : string;
  polar_line_width : Z;
  polar_fillcolor : string;
  polar_opacity : Q
}.

Record Scatter : Type := mkScatter {
  scatter_x : list Q;
  scatter_y : list Q;
  scatter_mode : string;
  scatter_marker_size : Z;
  scatter_marker_color : list Q;
  scatter_marker_colorscale : string;
  scatter_text : list string
}.

(** The hover text of one bar: the food and, for each of the four
    nutrients, its value and the level the value falls in.  The program
    renders it to HTML with one decimal; the model keeps the parts. *)
Record HoverText : Type := mkHoverText {
  hover_food : string;
  hover_protein : Q * string;
  hover_fat : Q * string;
  hover_fiber : Q * string;
  hover_carbs : Q * string
}.

Record Bar : Type := mkBar {
  bar_y : list string;
  bar_x : list Q;
  bar_orientation : string;
  bar_marker_color : string;
  bar_hovertemplate : list HoverText;
  bar_name : string
}.

Inductive Trace : Type :=
| TScatterpolar (t : Scatterpolar)
| TScatter (t : Scatter)
| TBar (t : Bar).

(** The layout attributes the program sets; [None] is an attribute left
    at the library's default. *)
Record Layout : Type := mkLayout {
  radialaxis_visible : option bool;
  radialaxis_range : option (float * float);
  title_text : option string;
  xaxis_title : option string;
  yaxis_title : option string;
  yaxis_categoryorder : option string;
  showlegend : option bool;
  height : option Z
}.

Record Figure : Type := mkFigure {
  data : list Trace;
  layout : Layout
}.

(** [go.Figure()] *)
Definition new_figure : Figure :=
  mkFigure [] (mkLayout None None None None None None None None).

(** [fig.add_trace(t)] *)
Definition add_trace (fig : Figure) (t : Trace) : Figure :=
  mkFigure (data fig ++ [t]) (layout fig).

(** [fig.update_layout(...)]: the attributes given replace the old ones. *)
Definition or_else {A : Type} (new old : option A) : option A :=
  match new with
  | Some _ => new
  | None => old
  end.

Definition update_layout (fig : Figure) (upd : Layout) : Figure :=
  let old := layout fig in
  mkFigure (data fig)
    (mkLayout
       (or_else (radialaxis_visible upd) (radialaxis_visible old))
       (or_else (radialaxis_range upd) (radialaxis_range old))
       (or_else (title_text upd) (title_text old))
       (or_else (xaxis_title upd) (xaxis_title old))
       (or_else (yaxis_title upd) (yaxis_title old))
       (or_else (yaxis_categoryorder upd) (yaxis_categoryorder old))
       (or_else (showlegend upd) (showlegend old))
       (or_else (height upd) (height old))).

(** The polygons of a figure, in the order they were added. *)
Fixpoint polygons (ts : list Trace) : list Scatterpolar :=
  match ts with
  | [] => []
  | TScatterpolar t :: rest => t :: polygons rest
  | _ :: rest => polygons rest
  end.

End Plotly.

(** ** The page library *)

Module Streamlit.

Import Py Pandas Plotly.

(** What a run of the page puts on the screen, call by call.  Static
    help texts are named by their first words, pictographs in labels are
    left out, and column containers, which only place widgets, are not
    recorded. *)
Inductive Value : Type :=
| Count (n : nat)
| Grams (x : float).

Inductive Call : Type :=
| error (msg : string) (cause : option exn)
| title (text : string)
| markdown (text : string)
| expander (label : string)
| subheader (text : string)
| info (text : string)
| multiselect (label : string) (options default : list string)
    (max_selections : nat)
| selectbox (label : string) (options : list string) (index : nat)
| plotly_chart (fig : Figure)
| dataframe (header : list string) (body : list (string * list Q))
| metric (label : string) (value : Value)
| exception (e : exn).

(** A computation of the page: the calls it made, and its result or the
    exception that ended it. *)
Definition App (A : Type) : Type := list Call * result A.

Definition ret {A : Type} (a : A) : App A := ([], Ok a).

Definition bind {A B : Type} (m : App A) (k : A -> App B) : App B :=
  match m with
  | (calls, Ok a) => let (more, r) := k a in ((calls ++ more)%list, r)
  | (calls, Raise e) => (calls, Raise e)
  end.

Definition call (c : Call) : App unit := ([c], Ok tt).

Definition lift {A : Type} (r : result A) : App A := ([], r).

(** [try: body / except <handled> as e: handler]: the calls made before
    the exception stay on the screen. *)
Definition try_except {A : Type} (body : App A) (handled : exn -> bool)
    (handler : exn -> App A) : App A :=
  match body with
  | (calls, Raise e) =>
      if handled e then let (more, r) := handler e in ((calls ++ more)%list, r)
      else (calls, Raise e)
  | done => done
  end.

(** What the user sees of a run of the page script: the calls it made
    and, when an exception left the script uncaught, the box in which the
    page framework displays that exception. *)
Definition run {A : Type} (script : App A) : list Call :=
  match script with
  | (calls, Ok _) => calls
  | (calls, Raise e) => (calls ++ [exception e])%list
  end.

End Streamlit.

Notation "x <- m ;; k" := (Streamlit.bind m (fun x => k))
(at level 61, m at next level, right associativity).
Notation "m ;;; k" := (Streamlit.bind m (fun _ => k))
(at level 61, right associativity).

(** ** main7.py *)

Module Main7.

Import Py Pandas Plotly Streamlit.

Inductive NutrientKind : Type := Protein | Fat | Fiber | Carbs.

Definition nutrient_name (n : NutrientKind) : string :=
  match n with
  | Protein => "Protein"
  | Fat => "Fat"
  | Fiber => "Fiber"
  | Carbs => "Carbs"
  end.

(** [load_data]: [None] stands for Python's [None].  The cache decorator,
    which lets later runs reuse the frame of the first, is not modelled. *)
Definition load_data (src : Source) : App (option DataFrame) :=
  try_except
    (df <- lift (read_csv src) ;;
     let df := strip_columns df in
     let df := dropna df in
     ret (Some df))
    (fun e => match e with FileNotFoundError => true | _ => false end)
    (fun _ =>
       call (error "Please upload your csv file to use this app." None) ;;;
       ret None).

(** *** Radar chart *)

Definition nutrients : list (FoodRecord -> Q) :=
  [prot_g; tot_fat_g; tot_fib_g; carb_g].

Definition labels : list string :=
  ["Protein (g)"; "Fat (g)"; "Fiber (g)"; "Carbs (g)"].

Definition colors : list string :=
  ["#E74C3C"; "#3498DB"; "#2ECC71"; "#F39C12"; "#9B59B6"].

(** [enumerate(xs)] *)
Definition enumerate {A : Type} (xs : list A) : list (nat * A) :=
  combine (seq 0 (List.length xs)) xs.

(** The legend entry of a food in the radar chart. *)
Definition display_name (food : string) : string :=
  if (len food <=? 20)%nat then food else slice_to 17 food ++ "...".

(** The radial scale for the rows of the selected foods. *)
Definition chart_max_of (selected_data : list FoodRecord) : result float :=
  match selected_data with
  | _ :: _ =>
      let max_values :=
        map (fun nutrient => series_max (map nutrient selected_data))
            nutrients in
      match Py.max max_values with
      | Ok m =>
          let chart_max := mul m (Some 1.3) in
          Ok (max2 chart_max (Some 10))
      | Raise e => Raise e
      end
  | [] => Ok (Some 50)
  end.

(** One turn of the loop over the selection. *)
Definition add_food (df : DataFrame) (fig : Figure) (entry : nat * string)
    : Figure :=
  let (i, food) := entry in
  let food_data := filter (fun row => String.eqb (Food_Name row) food)
                          (rows df) in
  match food_data with
  | food_row :: _ =>
      let values := map (fun nutrient => nutrient food_row) nutrients in
      let color := nth (i mod List.length colors) colors "" in
      add_trace fig
        (TScatterpolar
           (mkScatterpolar values labels "toself" (display_name food)
              color 3 color 0.4))
  | [] => fig
  end.

Definition create_radar_chart (selected_foods : list string)
    (df : DataFrame) : result Figure :=
  match selected_foods with
  | [] => Ok new_figure
  | _ :: _ =>
      let fig := new_figure in
      let selected_data :=
        filter (fun row => isin selected_foods (Food_Name row)) (rows df) in
      match chart_max_of selected_data with
      | Raise e => Raise e
      | Ok chart_max =>
          let fig := fold_left (add_food df) (enumerate selected_foods) fig in
          Ok (update_layout fig
                (mkLayout (Some true) (Some (Some 0, chart_max))
                   None None None None (Some true) (Some 500%Z)))
      end
  end.

(** *** Scatter overview *)

Definition create_scatter_overview (df : DataFrame) : Figure :=
  let fig := new_figure in
  let fig :=
    add_trace fig
      (TScatter
         (mkScatter (map prot_g (rows df)) (map tot_fib_g (rows df))
            "markers" 8 (map carb_g (rows df)) "Viridis"
            (map Food_Name (rows df)))) in
  update_layout fig
    (mkLayout None None
       (Some "All Vegetables: Protein vs Fiber (Color = Carbs)")
       (Some "Protein (g)") (Some "Fiber (g)") None (Some false)
       (Some 400%Z)).

(** *** Top performers *)

Definition create_top_performers_chart (df : DataFrame) : option Figure :=
  None.

Definition nutrient_map (n : NutrientKind) : FoodRecord -> Q :=
  match n with
  | Protein => prot_g
  | Fat => tot_fat_g
  | Fiber => tot_fib_g
  | Carbs => carb_g
  end.

Definition color_map (n : NutrientKind) : string :=
  match n with
  | Protein => "#E74C3C"
  | Fat => "#3498DB"
  | Fiber => "#2ECC71"
  | Carbs => "#F39C12"
  end.

(** The dictionary [quantile([0.25, 0.5, 0.75, 0.9, 0.95]).to_dict()] of
    one column: its five keys are fixed, so it is a record. *)
Record PercentileTable : Type := mkPercentileTable {
  p25 : float;
  p50 : float;
  p75 : float;
  p90 : float;
  p95 : float
}.

Definition percentiles (df : DataFrame) (nutrient : NutrientKind)
    : PercentileTable :=
  let col := map (nutrient_map nutrient) (rows df) in
  mkPercentileTable (quantile col 0.25) (quantile col 0.5)
    (quantile col 0.75) (quantile col 0.9) (quantile col 0.95).

(** The inner function [get_nutrient_level], with the table it closes
    over as its first argument. *)
Definition get_nutrient_level (percentiles : NutrientKind -> PercentileTable)
    (value : Q) (nutrient : NutrientKind) : string :=
  let p := percentiles nutrient in
  if ge (Some value) (p95 p) then "Top 5%"
  else if ge (Some value) (p90 p) then "Top 10%"
  else if ge (Some value) (p75 p) then "High"
  else if ge (Some value) (p50 p) then "Above Average"
  else if ge (Some value) (p25 p) then "Average"
  else "Below Average".

(** The function applied to every food name to fill [Display_Name]. *)
Definition Display_Name (x : string) : string :=
  if (25 <? len x)%nat then slice_to 25 x ++ "..." else x.

Definition hover_text (percentiles : NutrientKind -> PercentileTable)
    (row : FoodRecord) : HoverText :=
  let level := get_nutrient_level percentiles in
  mkHoverText (Food_Name row)
    (prot_g row, level (prot_g row) Protein)
    (tot_fat_g row, level (tot_fat_g row) Fat)
    (tot_fib_g row, level (tot_fib_g row) Fiber)
    (carb_g row, level (carb_g row) Carbs).

(** [create_enhanced_top_performers]; the pictograph that opens the title
    is left out.  An exception of [nlargest], the first call that can
    raise, ends the function. *)
Definition create_enhanced_top_performers (df : DataFrame)
    (selected_nutrient : NutrientKind) : result Figure :=
  let selected_col := nutrient_map selected_nutrient in
  let chart_color := color_map selected_nutrient in
  match nlargest 15 selected_col df with
  | Raise e => Raise e
  | Ok top_performers =>
      let Display_Name_col :=
        map Display_Name (map Food_Name (rows top_performers)) in
      let fig := new_figure in
      let percentiles := percentiles df in
      let hover_texts :=
        map (hover_text percentiles) (rows top_performers) in
      let fig :=
        add_trace fig
          (TBar
             (mkBar Display_Name_col
                (map selected_col (rows top_performers))
                "h" chart_color hover_texts
                (nutrient_name selected_nutrient)))
      in
      Ok (update_layout fig
            (mkLayout None None
               (Some ("Top 15 " ++ nutrient_name selected_nutrient
                      ++ " Sources"))
               (Some (nutrient_name selected_nutrient ++ " (g per 100g)"))
               (Some "") (Some "total ascending") (Some false)
               (Some 600%Z)))
  end.

(** *** The page *)

Definition always (e : exn) : bool := true.

(** The table of the selected foods, its numbers rounded for display. *)
Definition comparison_df (df : DataFrame) (selected_vegetables : list string)
    : list (string * list Q) :=
  map (fun row =>
         (Food_Name row,
          map round1 [prot_g row; tot_fat_g row; tot_fib_g row; carb_g row]))
      (filter (fun row => isin selected_vegetables (Food_Name row))
              (rows df)).

Definition show_top_performers (df : DataFrame) (n : NutrientKind)
    (note : string) : App unit :=
  try_except
    (enhanced_fig <- lift (create_enhanced_top_performers df n) ;;
     call (plotly_chart enhanced_fig) ;;;
     call (markdown note))
    always
    (fun e => call (error "Error creating enhanced chart: " (Some e))).

Definition show_scatter (df : DataFrame) : App unit :=
  try_except
    (call (plotly_chart (create_scatter_overview df)))
    always
    (fun e => call (error "Error creating scatter plot: " (Some e))).

(** [main].  The values the two selection widgets return,
    [selected_vegetables] and [selected_nutrient], are inputs of the run. *)
Definition main (src : Source) (selected_vegetables : list string)
    (selected_nutrient : NutrientKind) : App unit :=
  df <- load_data src ;;
  match df with
  | None => ret tt
  | Some df =>
      call (title "Vegetarian Foods Nutrition Dashboard") ;;;
      call (markdown "*Interactive tool for comparing nutritional profiles of vegetarian foods*") ;;;
      call (expander "About This Dashboard") ;;;
      call (markdown "---") ;;;
      let default_vegetables := firstn 3 (map Food_Name (rows df)) in
      call (subheader "Select Vegetables to Compare") ;;;
      call (multiselect "Choose up to 5 vegetables:"
              (sorted (unique (map Food_Name (rows df))))
              default_vegetables 5) ;;;
      match selected_vegetables with
      | _ :: _ =>
          call (subheader "Nutritional Profile Comparison") ;;;
          try_except
            (radar_fig <- lift (create_radar_chart selected_vegetables df) ;;
             call (plotly_chart radar_fig))
            always
            (fun e => call (error "Error creating radar chart: " (Some e))) ;;;
          call (subheader "Dataset Overview") ;;;
          show_scatter df ;;;
          call (subheader "Nutritional Values (per 100g)") ;;;
          call (dataframe
                  ["Vegetable"; "Protein (g)"; "Fat (g)"; "Fiber (g)";
                   "Carbs (g)"]
                  (comparison_df df selected_vegetables)) ;;;
          call (subheader "Top Nutritional Performers") ;;;
          call (expander "How to Use Top Performers") ;;;
          call (selectbox "Select nutrient to explore:"
                  ["Protein"; "Fat"; "Fiber"; "Carbs"] 0) ;;;
          show_top_performers df selected_nutrient
            "*Hover over any bar to see the complete nutritional profile of that vegetable*"
      | [] =>
          call (info "Please select at least one vegetable to see the radar chart") ;;;
          call (subheader "Dataset Overview - All 314 Vegetables") ;;;
          show_scatter df ;;;
          call (markdown "### Quick Stats") ;;;
          call (metric "Total Vegetables" (Count (List.length (rows df)))) ;;;
          call (metric "Highest Protein"
                  (Grams (series_max (map prot_g (rows df))))) ;;;
          call (metric "Highest Fiber"
                  (Grams (series_max (map tot_fib_g (rows df))))) ;;;
          call (metric "Lowest Carbs"
                  (Grams (series_min (map carb_g (rows df))))) ;;;
          show_top_performers df Protein
            "*Hover over any bar to see complete nutritional profiles*"
      end
  end.

End Main7.

(** ** Notions the statements use *)

Module Notions.

Import Py Pandas Plotly Streamlit Main7.

(** A cell is missing from the row. *)
Definition hasnans (r : RawRow) : bool :=
  match raw_Food_Name r, raw_prot_g r, raw_tot_fat_g r, raw_tot_fib_g r,
        raw_carb_g r with
  | Some _, Some _, Some _, Some _, Some _ =>
      existsb (fun c => match c with None => true | Some _ => false end)
              (raw_extra r)
  | _, _, _, _, _ => true
  end.

(** A record of the loaded frame, read back as a row of the source. *)
Definition as_raw (r : FoodRecord) : RawRow :=
  mkRawRow (Some (Food_Name r)) (Some (prot_g r)) (Some (tot_fat_g r))
    (Some (tot_fib_g r)) (Some (carb_g r)) (map Some (extra r)).

(** The four nutrient cells of a row and of a record. *)
Definition raw_nutrients (r : RawRow) : list float :=
  [raw_prot_g r; raw_tot_fat_g r; raw_tot_fib_g r; raw_carb_g r].

Definition nutrient_values (r : FoodRecord) : list Q :=
  [prot_g r; tot_fat_g r; tot_fib_g r; carb_g r].

(** A table that parses to the complete frame [df] was loaded. *)
Definition loads (src : Source) (df : DataFrame) : Prop :=
  load_data src = ([], Ok (Some df)).


(** What the user sees is an error: a message of the program, or the
    display of an exception that left the script. *)
Definition is_error (c : Call) : bool :=
  match c with
  | error _ _ => true
  | exception _ => true
  | _ => false
  end.

(** What the user sees of a run of the page. *)
Definition screen (src : Source) (selected_vegetables : list string)
    (selected_nutrient : NutrientKind) : list Call :=
  run (main src selected_vegetables selected_nutrient).

(** The source is a file that is missing or cannot be read. *)
Definition fails_to_read (src : Source) : Prop :=
  src = Missing \/ exists u, src = Broken u.



(** The value reaches the threshold; a NaN threshold is never reached. *)
Definition reaches (value : Q) (threshold : float) : Prop :=
  exists t, threshold = Some t /\ t <= value.

(** The buckets of a percentile table, highest first, and the label of a
    value: that of the first bucket whose threshold the value reaches,
    the threshold itself included, or [otherwise] when it reaches none. *)
Definition buckets (p : PercentileTable) : list (float * string) :=
  [(p95 p, "Top 5%"); (p90 p, "Top 10%"); (p75 p, "High");
   (p50 p, "Above Average"); (p25 p, "Average")].

Inductive first_match (value : Q)
    : list (float * string) -> string -> string -> Prop :=
| first_match_none (otherwise : string) :
    first_match value [] otherwise otherwise
| first_match_here (t : float) (label : string) (rest : list (float * string))
    (otherwise : string) :
    reaches value t ->
    first_match value ((t, label) :: rest) otherwise label
| first_match_later (t : float) (label : string)
    (rest : list (float * string)) (otherwise found : string) :
    ~ reaches value t ->
    first_match value rest otherwise found ->
    first_match value ((t, label) :: rest) otherwise found.

(** The same label, computed. *)
Fixpoint classify (value : Q) (bs : list (float * string))
    (otherwise : string) : string :=
  match bs with
  | [] => otherwise
  | (t, label) :: rest =>
      if ge (Some value) t then label else classify value rest otherwise
  end.

(** The first record of the frame with the given name. *)
Definition record_of (df : DataFrame) (food : string) : option FoodRecord :=
  find (fun row => String.eqb (Food_Name row) food) (rows df).

(** The name occurs in the frame. *)
Definition occurs (df : DataFrame) (food : string) : Prop :=
  exists r, In r (rows df) /\ Food_Name r = food.

(** The rows of the frame whose name is selected. *)
Definition selected (df : DataFrame) (sel : list string) (r : FoodRecord)
    : Prop :=
  In r (rows df) /\ In (Food_Name r) sel.

(** [m] is the largest nutrient value among the selected rows. *)
Definition largest_selected (df : DataFrame) (sel : list string) (m : Q)
    : Prop :=
  (exists r, selected df sel r /\ In m (nutrient_values r)) /\
  (forall r x, selected df sel r -> In x (nutrient_values r) -> x <= m).

(** The polygon of the [i]-th selected food, drawn from its record. *)
Definition polygon_of (i : nat) (food : string) (r : FoodRecord)
    : Scatterpolar :=
  let color := nth (i mod 5) colors "" in
  mkScatterpolar (nutrient_values r) labels "toself" (display_name food)
    color 3 color 0.4.

(** The traces one turn of the radar loop adds. *)
Definition traces_of (df : DataFrame) (entry : nat * string) : list Trace :=
  match record_of df (snd entry) with
  | Some r => [TScatterpolar (polygon_of (fst entry) (snd entry) r)]
  | None => []
  end.

(** The upper end of the radial axis. *)
Definition axis_max (fig : Figure) : option float :=
  option_map snd (radialaxis_range (layout fig)).

(** Later cells are no larger / no smaller than earlier ones. *)
Definition descending (xs : list Q) : Prop :=
  StronglySorted (fun a b => b <= a) xs.

Definition ascending (xs : list Q) : Prop :=
  StronglySorted (fun a b => a <= b) xs.

(** The [i]-th point of a scatter trace: its two coordinates, its colour
    value and its hover name. *)
Definition scatter_point (t : Scatter) (i : nat)
    : option (Q * Q * Q * string) :=
  match nth_error (scatter_x t) i, nth_error (scatter_y t) i,
        nth_error (scatter_marker_color t) i, nth_error (scatter_text t) i
  with
  | Some x, Some y, Some c, Some name => Some (x, y, c, name)
  | _, _, _, _ => None
  end.

(** The point a record is drawn as. *)
Definition point_of (r : FoodRecord) : Q * Q * Q * string :=
  (prot_g r, tot_fib_g r, carb_g r, Food_Name r).

Definition nonnegative (r : FoodRecord) : Prop :=
  Forall (fun x => 0 <= x) (nutrient_values r).

(** *** Notions for further properties *)

(** The polygons the radar loop draws for the numbered foods: one for
    each food that has a record, none for the others. *)
Definition drawn (df : DataFrame) (entries : list (nat * string))
    : list Scatterpolar :=
  flat_map (fun entry =>
              match record_of df (snd entry) with
              | Some r => [polygon_of (fst entry) (snd entry) r]
              | None => []
              end)
           entries.

(** The frame has a row with this name. *)
Definition found (df : DataFrame) (food : string) : bool :=
  existsb (fun row => String.eqb (Food_Name row) food) (rows df).

(** The levels, from the lowest to the highest. *)
Definition level_rank (level : string) : nat :=
  if String.eqb level "Top 5%" then 5
  else if String.eqb level "Top 10%" then 4
  else if String.eqb level "High" then 3
  else if String.eqb level "Above Average" then 2
  else if String.eqb level "Average" then 1
  else 0.

(** The string begins, or ends, with a character [strip] removes. *)
Definition first_space (s : string) : bool :=
  match s with
  | EmptyString => false
  | String c _ => isspace c
  end.

Fixpoint last_space (s : string) : bool :=
  match s with
  | EmptyString => false
  | String c EmptyString => isspace c
  | String _ rest => last_space rest
  end.

(** Every character of the string is one [strip] removes. *)
Fixpoint blank (s : string) : bool :=
  match s with
  | EmptyString => true
  | String c rest => isspace c && blank rest
  end.

(** The value and level a hover text reports for a nutrient. *)
Definition hover_of (n : NutrientKind) (h : HoverText) : Q * string :=
  match n with
  | Protein => hover_protein h
  | Fat => hover_fat h
  | Fiber => hover_fiber h
  | Carbs => hover_carbs h
  end.

(** The calls a run of the page makes. *)
Definition page (src : Source) (selected_vegetables : list string)
    (selected_nutrient : NutrientKind) : list Call :=
  fst (main src selected_vegetables selected_nutrient).


(** The quick statistics a list of calls shows, in order. *)
Fixpoint metrics (calls : list Call) : list (string * Value) :=
  match calls with
  | [] => []
  | metric label value :: rest => (label, value) :: metrics rest
  | _ :: rest => metrics rest
  end.

(** The selection widgets a list of calls shows: for each its options,
    its pre-selected entries and the number of entries it allows. *)
Fixpoint multiselects (calls : list Call)
    : list (list string * list string * nat) :=
  match calls with
  | [] => []
  | multiselect _ options default k :: rest =>
      (options, default, k) :: multiselects rest
  | _ :: rest => multiselects rest
  end.

(** The tables of numbers a list of calls shows. *)
Fixpoint tables (calls : list Call) : list (list (string * list Q)) :=
  match calls with
  | [] => []
  | dataframe _ body :: rest => body :: tables rest
  | _ :: rest => tables rest
  end.

(** [m] is a cell of the column that no cell exceeds, or that exceeds
    none. *)
Definition largest_of (col : list Q) (m : Q) : Prop :=
  In m col /\ forall y, In y col -> y <= m.

Definition smallest_of (col : list Q) (m : Q) : Prop :=
  In m col /\ forall y, In y col -> m <= y.

(** The number shown is within a twentieth of the number held. *)
Definition rounds (x shown : Q) : Prop :=
  x - (1 # 20) <= shown /\ shown <= x + (1 # 20).

(** The calls that open the page of a loaded frame. *)
Definition page_head (df : DataFrame) : list Call :=
  [title "Vegetarian Foods Nutrition Dashboard";
   markdown "*Interactive tool for comparing nutritional profiles of vegetarian foods*";
   expander "About This Dashboard";
   markdown "---";
   subheader "Select Vegetables to Compare";
   multiselect "Choose up to 5 vegetables:"
     (sorted (unique (map Food_Name (rows df))))
     (firstn 3 (map Food_Name (rows df))) 5].

(** The bar trace the top-performers builder makes of the rows it
    keeps. *)
Definition bar_of (df : DataFrame) (n : NutrientKind)
    (top : list FoodRecord) : Bar :=
  mkBar (map Display_Name (map Food_Name top)) (map (nutrient_map n) top)
    "h" (color_map n) (map (hover_text (percentiles df)) top)
    (nutrient_name n).

(** The calls of the top-performers part: the chart and the note under
    it, or the message for the exception the builder raised. *)
Definition top_calls (df : DataFrame) (n : NutrientKind) (note : string)
    : list Call :=
  match create_enhanced_top_performers df n with
  | Ok fig => [plotly_chart fig; markdown note]
  | Raise e => [error "Error creating enhanced chart: " (Some e)]
  end.

(** The calls that follow when some food is selected, [radar] being the
    radar chart of the selection. *)
Definition page_selected (df : DataFrame) (sel : list string)
    (n : NutrientKind) (radar : Figure) : list Call :=
  ([subheader "Nutritional Profile Comparison";
   plotly_chart radar;
   subheader "Dataset Overview";
   plotly_chart (create_scatter_overview df);
   subheader "Nutritional Values (per 100g)";
   dataframe ["Vegetable"; "Protein (g)"; "Fat (g)"; "Fiber (g)"; "Carbs (g)"]
     (comparison_df df sel);
   subheader "Top Nutritional Performers";
   expander "How to Use Top Performers";
   selectbox "Select nutrient to explore:"
     ["Protein"; "Fat"; "Fiber"; "Carbs"] 0]
   ++ top_calls df n
        "*Hover over any bar to see the complete nutritional profile of that vegetable*")%list.

(** The calls that follow when no food is selected. *)
Definition page_unselected (df : DataFrame) : list Call :=
  ([info "Please select at least one vegetable to see the radar chart";
   subheader "Dataset Overview - All 314 Vegetables";
   plotly_chart (create_scatter_overview df);
   markdown "### Quick Stats";
   metric "Total Vegetables" (Count (List.length (rows df)));
   metric "Highest Protein" (Grams (series_max (map prot_g (rows df))));
   metric "Highest Fiber" (Grams (series_max (map tot_fib_g (rows df))));
   metric "Lowest Carbs" (Grams (series_min (map carb_g (rows df))))]
   ++ top_calls df Protein
        "*Hover over any bar to see complete nutritional profiles*")%list.

(** Names in code-point order, the order of [sorted]. *)
Definition in_order (xs : list string) : Prop :=
  Sorted (fun a b => String.leb a b = true) xs.

End Notions.

(** ** Sample tables *)

Module Samples.

Import Py Pandas Plotly Streamlit Main7.

Definition header : list string :=
  ["Food Name"; " prot_g"; "tot_fat_g "; "tot_fib_g"; "carb_g"].

Definition raw (name : string) (p f b c : Q) : RawRow :=
  mkRawRow (Some name) (Some p) (Some f) (Some b) (Some c) [].

Definition food (name : string) (p f b c : Q) : FoodRecord :=
  mkFoodRecord name p f b c [].

(** The two foods of the specification's example. *)
Definition spinach : FoodRecord := food "Spinach" 2.9 0.4 2.2 3.6.
Definition lentils : FoodRecord := food "Lentils" 9.0 0.4 7.9 20.1.

Definition two_foods : DataFrame :=
  mkDataFrame ["Food Name"; "prot_g"; "tot_fat_g"; "tot_fib_g"; "carb_g"]
    [spinach; lentils] float64.



(** A table with a row whose fibre cell is missing. *)
Definition gappy_table : RawFrame :=
  mkRawFrame header
    [raw "Spinach" 2.9 0.4 2.2 3.6;
     mkRawRow (Some "Okra") (Some 1.9) (Some 0.2) None (Some 7.0) [];
     raw "Lentils" 9.0 0.4 7.9 20.1].

(** A table with a negative protein cell. *)
Definition negative_table : RawFrame :=
  mkRawFrame header [raw "Okra" (-1.9) 0.2 3.2 7.0].

(** A table that lists one food twice. *)
Definition repeated_table : RawFrame :=
  mkRawFrame header
    [raw "Okra" 1.9 0.2 3.2 7.0; raw "Okra" 2.0 0.1 3.0 7.5].

End Samples.

Import Py Pandas Plotly Streamlit Main7 Notions.

(** ** The loader *)

Section Loader.

Lemma all_present_map_Some {A : Type} (cells : list (option A)) (cs : list A) :
  all_present cells = Some cs -> cells = map Some cs.
Proof.
  revert cs; induction cells as [|[c|] rest IH]; simpl; intros cs H.
  - now inversion H.
  - destruct (all_present rest) as [cs'|]; [|discriminate].
    inversion H; subst; simpl. now rewrite (IH cs').
  - discriminate.
Qed.

Lemma all_present_existsb {A : Type} (cells : list (option A)) :
  existsb (fun c => match c with None => true | Some _ => false end) cells
  = match all_present cells with Some _ => false | None => true end.
Proof.
  induction cells as [|[c|] rest IH]; simpl; auto.
  rewrite IH. now destruct (all_present rest).
Qed.

(** [notna] keeps a row exactly when no cell is missing, and keeps it as
    it is. *)
Lemma notna_Some (r : RawRow) (rec : FoodRecord) :
  notna r = Some rec -> as_raw rec = r /\ hasnans r = false.
Proof.
  unfold notna, as_raw, hasnans. destruct r as [n p f b c e]; simpl.
  destruct n, p, f, b, c; try discriminate.
  rewrite all_present_existsb.
  destruct (all_present e) as [cs|] eqn:E; [|discriminate].
  intros H; inversion H; subst; simpl.
  now rewrite (all_present_map_Some _ _ E).
Qed.

Lemma notna_None (r : RawRow) : notna r = None -> hasnans r = true.
Proof.
  unfold notna, hasnans. destruct r as [n p f b c e]; simpl.
  destruct n, p, f, b, c; auto.
  rewrite all_present_existsb.
  now destruct (all_present e).
Qed.

Lemma dropna_rows_filter (rs : list RawRow) :
  map as_raw (dropna_rows rs) = filter (fun r => negb (hasnans r)) rs.
Proof.
  induction rs as [|r rest IH]; simpl; auto.
  destruct (notna r) as [rec|] eqn:E.
  - destruct (notna_Some _ _ E) as [Hraw Hnan].
    rewrite Hnan; simpl. now rewrite Hraw, IH.
  - now rewrite (notna_None _ E).
Qed.

Lemma dropna_rows_In (rs : list RawRow) (rec : FoodRecord) :
  In rec (dropna_rows rs) -> In (as_raw rec) rs /\ hasnans (as_raw rec) = false.
Proof.
  intros H. apply (in_map as_raw) in H.
  rewrite dropna_rows_filter in H. apply filter_In in H.
  destruct H as [H1 H2]. split; auto.
  now apply negb_true_iff.
Qed.

Lemma load_data_Table (raw : RawFrame) :
  load_data (Table raw) = ([], Ok (Some (dropna (strip_columns raw)))).
Proof. reflexivity. Qed.

Lemma loads_inv (src : Source) (df : DataFrame) :
  loads src df ->
  exists raw, src = Table raw /\ df = dropna (strip_columns raw).
Proof.
  unfold loads. destruct src as [|u|raw]; simpl.
  - discriminate.
  - destruct u; discriminate.
  - intros H. exists raw. split; auto. now inversion H.
Qed.

End Loader.

Section LoaderClaims.

Import Samples.

(** C6 (as the claim states it, refuted).  The loader keeps a row whose
    protein cell is negative: dropping the rows with a missing cell does
    not make the remaining values non-negative. *)
Lemma load_data_keeps_negative_value :
  exists df r,
    loads (Table negative_table) df /\ In r (rows df) /\ ~ nonnegative r.
Proof.
  eexists; eexists. split; [reflexivity|]. split; [left; reflexivity|].
  intros H. inversion H as [|x l Hx _]; subst.
  apply Hx. reflexivity.
Qed.

(** C6 (amended).  For every tabular source, every record of the loaded
    dataset carries in its four nutrient fields the cells of a source row
    that has no missing cell: the loader drops the rows with a missing
    cell and changes no value.  So the nutrient values of the dataset are
    non-negative whenever the cells present in the source are; the loader
    itself does not look at signs. *)
Theorem load_data_keeps_source_values (raw : RawFrame) (df : DataFrame)
    (r : FoodRecord) :
  loads (Table raw) df ->
  In r (rows df) ->
  (exists row,
      In row (raw_rows raw) /\ hasnans row = false /\
      raw_Food_Name row = Some (Food_Name r) /\
      raw_nutrients row = map Some (nutrient_values r)) /\
  ((forall row x,
       In row (raw_rows raw) -> In (Some x) (raw_nutrients row) -> 0 <= x) ->
   nonnegative r).
Proof.
  intros Hload Hin.
  destruct (loads_inv _ _ Hload) as [raw' [Hsrc Hdf]].
  inversion Hsrc; subst raw'; subst df; simpl in Hin.
  destruct (dropna_rows_In _ _ Hin) as [Hrow Hnan].
  split.
  - exists (as_raw r). repeat split; auto.
  - intros Hpos. unfold nonnegative.
    apply Forall_forall. intros x Hx.
    apply (Hpos (as_raw r) x Hrow).
    change (raw_nutrients (as_raw r)) with (map Some (nutrient_values r)).
    now apply in_map.
Qed.

Lemma load_data_keeps_source_values_witness :
  loads (Table gappy_table) (dropna (strip_columns gappy_table)) /\
  In lentils (rows (dropna (strip_columns gappy_table))) /\
  nonnegative lentils.
Proof.
  assert (L : loads (Table gappy_table) (dropna (strip_columns gappy_table)))
    by reflexivity.
  assert (I : In lentils (rows (dropna (strip_columns gappy_table))))
    by (simpl; right; left; reflexivity).
  split; [exact L|]. split; [exact I|].
  apply (proj2 (load_data_keeps_source_values _ _ _ L I)).
  intros row x Hrow Hx. simpl in Hrow.
  destruct Hrow as [<-|[<-|[<-|[]]]]; simpl in Hx;
    repeat (destruct Hx as [Hx|Hx];
            [inversion Hx; subst; discriminate|]);
    try contradiction.
Defined.

(** C7 (as the claim states it, refuted).  A food listed twice in the
    source is twice in the loaded dataset: the loader does not make the
    name a unique key. *)
Lemma load_data_keeps_repeated_name :
  exists df,
    loads (Table repeated_table) df /\ ~ NoDup (map Food_Name (rows df)).
Proof.
  eexists. split; [reflexivity|].
  simpl. intros H. inversion H as [|x l Hx _]; subst.
  apply Hx. left; reflexivity.
Qed.

(** C7 (amended).  For every tabular source, the loaded dataset is made of
    exactly the source rows that have no missing cell, each once for each
    time the source lists it and in the order of the source, under the
    column headers stripped of surrounding white space; so no record of
    the dataset has a missing value.  The rows are not deduplicated: food
    names are unique in the dataset when they are unique among the
    complete rows of the source. *)
Theorem load_data_keeps_complete_rows (raw : RawFrame) (df : DataFrame) :
  loads (Table raw) df ->
  columns df = map strip (raw_columns raw) /\
  map as_raw (rows df) = filter (fun r => negb (hasnans r)) (raw_rows raw) /\
  Forall (fun r => hasnans (as_raw r) = false) (rows df) /\
  (NoDup (map raw_Food_Name
            (filter (fun r => negb (hasnans r)) (raw_rows raw))) ->
   NoDup (map Food_Name (rows df))).
Proof.
  intros Hload.
  destruct (loads_inv _ _ Hload) as [raw' [Hsrc Hdf]].
  inversion Hsrc; subst raw'; subst df; simpl.
  split; [reflexivity|]. split; [apply dropna_rows_filter|]. split.
  - apply Forall_forall. intros r Hr.
    now destruct (dropna_rows_In _ _ Hr).
  - rewrite <- dropna_rows_filter, map_map. simpl.
    rewrite <- (map_map Food_Name Some).
    apply NoDup_map_inv.
Qed.

Lemma load_data_keeps_complete_rows_witness :
  loads (Table gappy_table) (dropna (strip_columns gappy_table)) /\
  map Food_Name (rows (dropna (strip_columns gappy_table)))
  = ["Spinach"; "Lentils"] /\
  columns (dropna (strip_columns gappy_table))
  = ["Food Name"; "prot_g"; "tot_fat_g"; "tot_fib_g"; "carb_g"] /\
  Forall (fun r => hasnans (as_raw r) = false)
    (rows (dropna (strip_columns gappy_table))).
Proof.
  assert (L : loads (Table gappy_table) (dropna (strip_columns gappy_table)))
    by reflexivity.
  split; [exact L|]. split; [reflexivity|]. split; [reflexivity|].
  exact (proj1 (proj2 (proj2 (load_data_keeps_complete_rows _ _ L)))).
Defined.

(** C8.  The loader fails, yielding no dataset, exactly when the input
    file is missing or cannot be read or parsed, and in either case the
    user sees an error in place of the page and nothing further.  When
    the file is missing the loader shows its own message and returns no
    dataset, and [main] returns at once.  When the file cannot be read or
    parsed the exception of the reader leaves the loader and [main], and
    what the user sees is the page framework's display of it. *)
Theorem load_data_failure_modes (src : Source)
    (selected_vegetables : list string) (selected_nutrient : NutrientKind) :
  (fails_to_read src <->
   ~ exists df, snd (load_data src) = Ok (Some df)) /\
  (fails_to_read src ->
   exists shown,
     screen src selected_vegetables selected_nutrient = [shown] /\
     is_error shown = true) /\
  match src with
  | Missing =>
      load_data src
      = ([error "Please upload your csv file to use this app." None],
         Ok None) /\
      screen src selected_vegetables selected_nutrient
      = [error "Please upload your csv file to use this app." None]
  | Broken u =>
      load_data src = ([], Raise (unreadable_exn u)) /\
      screen src selected_vegetables selected_nutrient
      = [exception (unreadable_exn u)]
  | Table raw => exists df, loads src df
  end.
Proof.
  split; [|split].
  - split.
    + intros [->|[u ->]] [df H]; [discriminate|].
      destruct u; discriminate.
    + intros H. destruct src as [|u|raw].
      * now left.
      * right. now exists u.
      * exfalso. apply H. eexists. reflexivity.
  - intros [->|[u ->]].
    + eexists. split; reflexivity.
    + exists (exception (unreadable_exn u)).
      split; [destruct u|]; reflexivity.
  - destruct src as [|u|raw].
    + split; reflexivity.
    + split; destruct u; reflexivity.
    + eexists. reflexivity.
Qed.

Lemma load_data_failure_modes_witness :
  fails_to_read (Broken BadSyntax) /\
  exists shown,
    screen (Broken BadSyntax) ["Spinach"] Protein = [shown] /\
    is_error shown = true.
Proof.
  assert (F : fails_to_read (Broken BadSyntax))
    by (right; exists BadSyntax; reflexivity).
  split; [exact F|].
  exact (proj1 (proj2 (load_data_failure_modes (Broken BadSyntax)
                          ["Spinach"] Protein)) F).
Defined.

End LoaderClaims.

(** ** Names on the bars *)

Section DisplayNames.

Lemma slice_to_split (n : nat) (s : string) :
  (n <= len s)%nat ->
  exists cut, s = slice_to n s ++ cut /\ len (slice_to n s) = n.
Proof.
  unfold slice_to, len. revert s.
  induction n as [|n IH]; intros s Hn.
  - exists s. now destruct s.
  - destruct s as [|c s]; simpl in Hn; [lia|].
    destruct (IH s) as [cut [Hs Hl]]; [lia|].
    exists cut. simpl. split; [now rewrite <- Hs | now rewrite Hl].
Qed.

(** C5 (as the claim states it, refuted).  The first 25 characters of the
    name end with its fourth word, so the name shown is not the one the
    claim gives, which keeps 27 characters. *)
Lemma Display_Name_bottle_gourd_differs :
  len "Bottle Gourd Without Skin Raw" = 29%nat /\
  Display_Name "Bottle Gourd Without Skin Raw"
  <> "Bottle Gourd Without Skin R...".
Proof. split; [reflexivity | vm_compute; discriminate]. Qed.

(** C5 (amended).  In the top-performers chart a food name of at most 25
    characters is shown unchanged, and a longer one is cut to its first
    25 characters, followed by three dots; the 29-character name
    "Bottle Gourd Without Skin Raw" is shown as
    "Bottle Gourd Without Skin...". *)
Theorem Display_Name_truncates (x : string) :
  ((len x <= 25)%nat -> Display_Name x = x) /\
  ((25 < len x)%nat ->
   exists kept cut,
     x = kept ++ cut /\ len kept = 25%nat /\
     Display_Name x = kept ++ "...") /\
  Display_Name "Bottle Gourd Without Skin Raw"
  = "Bottle Gourd Without Skin...".
Proof.
  split; [|split; [|reflexivity]]; intros H; unfold Display_Name.
  - destruct (Nat.ltb_spec 25 (len x)); [lia | reflexivity].
  - destruct (Nat.ltb_spec 25 (len x)); [|lia].
    destruct (slice_to_split 25 x) as [cut [Hx Hl]]; [lia|].
    exists (slice_to 25 x), cut. auto.
Qed.

Lemma Display_Name_truncates_witness :
  (25 < len "Bottle Gourd Without Skin Raw")%nat /\
  exists kept cut,
    "Bottle Gourd Without Skin Raw" = kept ++ cut /\ len kept = 25%nat /\
    Display_Name "Bottle Gourd Without Skin Raw" = kept ++ "...".
Proof.
  assert (H : (25 < len "Bottle Gourd Without Skin Raw")%nat)
    by (vm_compute; lia).
  split; [exact H|].
  exact (proj1 (proj2 (Display_Name_truncates _)) H).
Defined.

End DisplayNames.

(** ** Scatter overview *)

Section ScatterOverview.

Lemma nth_error_map_point (rs : list FoodRecord) (i : nat) :
  match nth_error (map prot_g rs) i, nth_error (map tot_fib_g rs) i,
        nth_error (map carb_g rs) i, nth_error (map Food_Name rs) i
  with
  | Some x, Some y, Some c, Some name => Some (x, y, c, name)
  | _, _, _, _ => None
  end = option_map point_of (nth_error rs i).
Proof.
  rewrite !nth_error_map. now destruct (nth_error rs i).
Qed.

(** C9.  For every dataset the scatter overview holds one trace whose
    four columns are as long as the dataset, and whose [i]-th point is
    the [i]-th record: protein against fibre, coloured by carbohydrate
    and labelled with the food name.  No record is left out, merged or
    drawn twice. *)
Theorem create_scatter_overview_one_point_per_record (df : DataFrame) :
  exists t,
    data (create_scatter_overview df) = [TScatter t] /\
    List.length (scatter_x t) = List.length (rows df) /\
    List.length (scatter_y t) = List.length (rows df) /\
    List.length (scatter_marker_color t) = List.length (rows df) /\
    List.length (scatter_text t) = List.length (rows df) /\
    forall i, scatter_point t i = option_map point_of (nth_error (rows df) i).
Proof.
  eexists. split; [reflexivity|]. simpl.
  rewrite !length_map. repeat split.
  intros i. apply nth_error_map_point.
Qed.

End ScatterOverview.

(** ** Radar chart *)

Section Radar.

Variable df : DataFrame.

Lemma find_filter {A : Type} (f : A -> bool) (l : list A) :
  find f l = hd_error (filter f l).
Proof.
  induction l as [|a l IH]; simpl; auto.
  now destruct (f a).
Qed.

Lemma add_food_traces (fig : Figure) (entry : nat * string) :
  add_food df fig entry
  = mkFigure (data fig ++ traces_of df entry) (layout fig).
Proof.
  destruct entry as [i food]. unfold add_food, traces_of, record_of. simpl.
  rewrite find_filter.
  destruct (filter _ (rows df)) as [|food_row rest]; simpl.
  - rewrite app_nil_r. now destruct fig.
  - reflexivity.
Qed.

Lemma fold_add_food (entries : list (nat * string)) (fig : Figure) :
  fold_left (add_food df) entries fig
  = mkFigure (data fig ++ flat_map (traces_of df) entries) (layout fig).
Proof.
  revert fig. induction entries as [|e rest IH]; intros fig; simpl.
  - rewrite app_nil_r. now destruct fig.
  - rewrite IH, add_food_traces. simpl. now rewrite <- app_assoc.
Qed.

Lemma record_of_occurs (food : string) :
  occurs df food -> exists r, record_of df food = Some r.
Proof.
  intros [r [Hin Hname]]. unfold record_of.
  destruct (find _ (rows df)) as [r'|] eqn:E; [eauto|].
  exfalso. apply (find_none _ _ E) in Hin.
  rewrite Hname, String.eqb_refl in Hin. discriminate.
Qed.

Lemma record_of_named (food : string) (r : FoodRecord) :
  record_of df food = Some r -> In r (rows df) /\ Food_Name r = food.
Proof.
  intros H. apply find_some in H. destruct H as [Hin Heq].
  split; auto. now apply String.eqb_eq.
Qed.

Lemma record_of_absent (food : string) :
  ~ occurs df food -> record_of df food = None.
Proof.
  intros H. destruct (record_of df food) as [r|] eqn:E; auto.
  exfalso. apply H. exists r. now apply record_of_named.
Qed.

(** The traces of a selection whose foods all occur: one polygon a food. *)
Lemma traces_all_found (sel : list string) (k : nat) :
  (forall food, In food sel -> occurs df food) ->
  exists ps,
    flat_map (traces_of df) (combine (seq k (List.length sel)) sel)
    = map TScatterpolar ps /\
    Forall2 (fun food t =>
               exists r, record_of df food = Some r /\
                         polar_r t = nutrient_values r /\
                         polar_theta t = labels /\
                         polar_name t = display_name food)
            sel ps.
Proof.
  revert k. induction sel as [|food rest IH]; intros k Hocc; simpl.
  - exists []. split; [reflexivity | constructor].
  - destruct (IH (S k)) as [ps [Hps Hall]].
    { intros f Hf. apply Hocc. now right. }
    destruct (record_of_occurs food) as [r Hr].
    { apply Hocc. now left. }
    exists (polygon_of k food r :: ps). split.
    + unfold traces_of at 1. simpl. rewrite Hr. simpl. now rewrite Hps.
    + constructor; auto. exists r. repeat split; auto.
Qed.

Lemma traces_none_found (sel : list string) (k : nat) :
  (forall food, In food sel -> ~ occurs df food) ->
  flat_map (traces_of df) (combine (seq k (List.length sel)) sel) = [].
Proof.
  revert k. induction sel as [|food rest IH]; intros k Hocc; simpl; auto.
  unfold traces_of at 1. simpl.
  rewrite record_of_absent by (apply Hocc; now left). simpl.
  apply IH. intros f Hf. apply Hocc. now right.
Qed.

Lemma polygons_map (ps : list Scatterpolar) :
  polygons (map TScatterpolar ps) = ps.
Proof. induction ps as [|p ps IH]; simpl; congruence. Qed.

Lemma chart_max_of_total (selected_data : list FoodRecord) :
  exists c, chart_max_of selected_data = Ok c.
Proof. destruct selected_data; simpl; eauto. Qed.

Lemma create_radar_chart_Ok (food : string) (sel : list string) :
  exists c,
    chart_max_of
      (filter (fun row => isin (food :: sel) (Food_Name row)) (rows df))
    = Ok c /\
    create_radar_chart (food :: sel) df
    = Ok (mkFigure
            (flat_map (traces_of df) (enumerate (food :: sel)))
            (mkLayout (Some true) (Some (Some 0, c)) None None None None
               (Some true) (Some 500%Z))).
Proof.
  destruct (chart_max_of_total
              (filter (fun row => isin (food :: sel) (Food_Name row))
                      (rows df))) as [c Hc].
  exists c. split; [exact Hc|].
  unfold create_radar_chart. rewrite Hc, fold_add_food. reflexivity.
Qed.

End Radar.

Section RadarClaims.

Import Samples.

Lemma isin_In (values : list string) (cell : string) :
  isin values cell = true <-> In cell values.
Proof.
  unfold isin, contains. rewrite existsb_exists. split.
  - intros [x [Hin Heq]]. apply String.eqb_eq in Heq. now subst.
  - intros Hin. exists cell. split; auto. apply String.eqb_refl.
Qed.

Lemma selected_filter (df : DataFrame) (sel : list string) (r : FoodRecord) :
  In r (filter (fun row => isin sel (Food_Name row)) (rows df))
  <-> selected df sel r.
Proof. unfold selected. now rewrite filter_In, isin_In. Qed.

(** C3.  For every selection whose names all occur in the dataset (of any
    size, so of every size from 0 to 5), the radar builder returns, without
    error, a figure whose traces are polygons, one for each selected food
    and in the order of the selection; the polygon of a food holds exactly
    the four values Protein, Fat, Fiber, Carbs, in this order, of the
    first record of the dataset that bears the food's name.  For the empty
    selection the figure is the empty figure, with no polygon. *)
Theorem create_radar_chart_one_polygon_per_food (df : DataFrame)
    (sel : list string) :
  (forall food, In food sel -> occurs df food) ->
  exists fig ps,
    create_radar_chart sel df = Ok fig /\
    data fig = map TScatterpolar ps /\
    List.length ps = List.length sel /\
    Forall2 (fun food t =>
               exists r,
                 record_of df food = Some r /\
                 In r (rows df) /\ Food_Name r = food /\
                 polar_r t
                 = [prot_g r; tot_fat_g r; tot_fib_g r; carb_g r] /\
                 polar_theta t
                 = ["Protein (g)"; "Fat (g)"; "Fiber (g)"; "Carbs (g)"])
            sel ps /\
    (sel = [] -> fig = new_figure /\ ps = []).
Proof.
  intros Hocc. destruct sel as [|food rest].
  - exists new_figure, []. repeat split; constructor.
  - destruct (create_radar_chart_Ok df food rest) as [c [_ Hfig]].
    destruct (traces_all_found df (food :: rest) 0 Hocc) as [ps [Hps Hall]].
    eexists; exists ps. split; [exact Hfig|]. simpl data.
    split; [exact Hps|].
    split; [symmetry; exact (Forall2_length Hall)|].
    split; [|discriminate].
    eapply Forall2_impl; [|exact Hall].
    intros f t [r [Hr [Hv [Ht _]]]].
    destruct (record_of_named df f r Hr) as [Hin Hname].
    exists r. repeat split; auto.
Qed.

Lemma create_radar_chart_one_polygon_per_food_witness :
  (forall food, In food ["Spinach"; "Lentils"] -> occurs two_foods food) /\
  exists fig ps,
    create_radar_chart ["Spinach"; "Lentils"] two_foods = Ok fig /\
    data fig = map TScatterpolar ps /\
    List.length ps = 2%nat.
Proof.
  assert (H : forall food,
             In food ["Spinach"; "Lentils"] -> occurs two_foods food).
  { intros food [<-|[<-|[]]].
    - exists spinach. split; [left|]; reflexivity.
    - exists lentils. split; [right; left|]; reflexivity. }
  split; [exact H|].
  destruct (create_radar_chart_one_polygon_per_food two_foods _ H)
    as [fig [ps [H1 [H2 [H3 _]]]]].
  exists fig, ps. auto.
Defined.

(** C10.  For every non-empty selection none of whose names occurs in the
    dataset, the radar builder returns, without error, a figure with no
    trace at all, whose radial axis ends at the constant 50. *)
Theorem create_radar_chart_unknown_foods (df : DataFrame)
    (sel : list string) :
  sel <> [] ->
  (forall food, In food sel -> ~ occurs df food) ->
  exists fig,
    create_radar_chart sel df = Ok fig /\
    data fig = [] /\
    polygons (data fig) = [] /\
    axis_max fig = Some (Some 50).
Proof.
  intros Hne Hnone. destruct sel as [|food rest]; [contradiction|].
  destruct (create_radar_chart_Ok df food rest) as [c [Hc Hfig]].
  assert (Hempty : filter (fun row => isin (food :: rest) (Food_Name row))
                          (rows df) = []).
  { destruct (filter _ (rows df)) as [|r l] eqn:E; auto.
    exfalso. assert (Hr : In r (r :: l)) by now left.
    rewrite <- E in Hr. apply selected_filter in Hr.
    destruct Hr as [Hin Hname].
    apply (Hnone _ Hname). now exists r. }
  rewrite Hempty in Hc. simpl in Hc. inversion Hc; subst c.
  assert (Ht : flat_map (traces_of df) (enumerate (food :: rest)) = [])
    by apply (traces_none_found df _ 0 Hnone).
  eexists. split; [exact Hfig|]. cbn [data]. rewrite Ht.
  repeat split.
Qed.

Lemma create_radar_chart_unknown_foods_witness :
  ["Okra"] <> [] /\
  (forall food, In food ["Okra"] -> ~ occurs two_foods food) /\
  exists fig,
    create_radar_chart ["Okra"] two_foods = Ok fig /\
    data fig = [] /\
    axis_max fig = Some (Some 50).
Proof.
  assert (H0 : ["Okra"] <> []) by discriminate.
  assert (H : forall food,
             In food ["Okra"] -> ~ occurs two_foods food).
  { intros food [<-|[]] [r [[<-|[<-|[]]] Hname]]; discriminate. }
  split; [exact H0|]. split; [exact H|].
  destruct (create_radar_chart_unknown_foods two_foods _ H0 H)
    as [fig [H1 [H2 [_ H3]]]].
  exists fig. auto.
Defined.

End RadarClaims.

(** ** The radial scale *)

Section RadialScale.

Import Samples.

Lemma larger_cases (m y : Q) :
  (y <= m /\ larger m y = m) \/ (m < y /\ larger m y = y).
Proof.
  unfold larger. destruct (Qle_bool y m) eqn:E.
  - left. split; auto. now apply Qle_bool_iff.
  - right. split; auto. apply Qnot_le_lt. intros H.
    apply Qle_bool_iff in H. congruence.
Qed.

(** The running maximum ends on a cell of the column that no cell exceeds. *)
Lemma fold_larger_spec (qs : list Q) (c : Q) :
  In (fold_left larger qs c) (c :: qs) /\
  forall y, In y (c :: qs) -> y <= fold_left larger qs c.
Proof.
  revert c. induction qs as [|q qs IH]; intros c; simpl.
  - split; [now left|]. intros y [<-|[]]. apply Qle_refl.
  - destruct (IH (larger c q)) as [Hin Hub]. split.
    + destruct Hin as [Hin|Hin]; [|now right; right].
      rewrite <- Hin.
      destruct (larger_cases c q) as [[_ ->]|[_ ->]]; [now left|now right; left].
    + assert (Hc : c <= larger c q /\ q <= larger c q).
      { destruct (larger_cases c q) as [[H ->]|[H ->]]; split;
          auto using Qle_refl, Qlt_le_weak. }
      intros y [<-|[<-|Hy]].
      * eapply Qle_trans; [apply Hc|]. apply Hub. now left.
      * eapply Qle_trans; [apply Hc|]. apply Hub. now left.
      * apply Hub. now right.
Qed.

Lemma series_max_spec (s : list Q) :
  s <> [] ->
  exists m, series_max s = Some m /\ In m s /\ forall y, In y s -> y <= m.
Proof.
  destruct s as [|x rest]; [contradiction|]. intros _.
  exists (fold_left larger rest x). split; [reflexivity|].
  apply fold_larger_spec.
Qed.

(** On numbers the builtin [max] is the same running maximum. *)
Lemma max_from_numbers (qs : list Q) (c : Q) :
  max_from (Some c) (map Some qs) = Some (fold_left larger qs c).
Proof.
  revert c. induction qs as [|q qs IH]; intros c; simpl; auto.
  unfold larger at 2. destruct (Qle_bool q c); simpl; apply IH.
Qed.

Lemma column_max_spec (f : FoodRecord -> Q) (rs : list FoodRecord) :
  rs <> [] ->
  exists m,
    series_max (map f rs) = Some m /\
    (exists r, In r rs /\ f r = m) /\
    (forall r, In r rs -> f r <= m).
Proof.
  intros Hne.
  destruct (series_max_spec (map f rs)) as [m [Hm [Hin Hub]]].
  { destruct rs; [contradiction | discriminate]. }
  exists m. split; [exact Hm|]. split.
  - apply in_map_iff in Hin. destruct Hin as [r [Hr Hin]]. eauto.
  - intros r Hr. apply Hub. now apply in_map.
Qed.

(** The scale of a non-empty set of rows: 1.3 times their largest nutrient
    value, or 10 when that is larger. *)
Lemma chart_max_of_spec (rs : list FoodRecord) :
  rs <> [] ->
  exists m,
    chart_max_of rs = Ok (Some (larger (m * 1.3) 10)) /\
    (exists r, In r rs /\ In m (nutrient_values r)) /\
    (forall r x, In r rs -> In x (nutrient_values r) -> x <= m).
Proof.
  intros Hne.
  destruct (column_max_spec prot_g rs Hne) as [m1 [E1 [[r1 [I1 A1]] U1]]].
  destruct (column_max_spec tot_fat_g rs Hne) as [m2 [E2 [[r2 [I2 A2]] U2]]].
  destruct (column_max_spec tot_fib_g rs Hne) as [m3 [E3 [[r3 [I3 A3]] U3]]].
  destruct (column_max_spec carb_g rs Hne) as [m4 [E4 [[r4 [I4 A4]] U4]]].
  destruct (fold_larger_spec [m2; m3; m4] m1) as [Hin Hub].
  exists (fold_left larger [m2; m3; m4] m1). split; [|split].
  - assert (Heq : chart_max_of rs
                  = match Py.max [series_max (map prot_g rs);
                                  series_max (map tot_fat_g rs);
                                  series_max (map tot_fib_g rs);
                                  series_max (map carb_g rs)] with
                    | Ok m => Ok (max2 (mul m (Some 1.3)) (Some 10))
                    | Raise e => Raise e
                    end)
      by (destruct rs; [contradiction | reflexivity]).
    rewrite Heq, E1, E2, E3, E4.
    change (Py.max [Some m1; Some m2; Some m3; Some m4])
      with (Ok (max_from (Some m1) (map Some [m2; m3; m4]))).
    rewrite max_from_numbers. unfold mul.
    change (max2 (Some ?a) (Some ?b)) with (max_from (Some a) (map Some [b])).
    now rewrite max_from_numbers.
  - destruct Hin as [H|[H|[H|[H|[]]]]]; rewrite <- H.
    + exists r1. split; auto. rewrite <- A1. simpl; auto.
    + exists r2. split; auto. rewrite <- A2. simpl; auto.
    + exists r3. split; auto. rewrite <- A3. simpl; auto.
    + exists r4. split; auto. rewrite <- A4. simpl; auto.
  - intros r x Hr Hx. simpl in Hx.
    destruct Hx as [<-|[<-|[<-|[<-|[]]]]].
    + eapply Qle_trans; [apply (U1 r Hr)|]. apply Hub. simpl; auto.
    + eapply Qle_trans; [apply (U2 r Hr)|]. apply Hub. simpl; auto.
    + eapply Qle_trans; [apply (U3 r Hr)|]. apply Hub. simpl; auto.
    + eapply Qle_trans; [apply (U4 r Hr)|]. apply Hub. simpl; auto 6.
Qed.

(** C4.  For every non-empty selection whose names occur in the dataset,
    the radar builder returns a figure whose radial axis runs from 0 to
    max(1.3 * m, 10), where m is the largest nutrient value, over all four
    nutrients, of the dataset rows that bear a selected name.  So the axis
    maximum is at least 10, and it is 1.3 * m whenever 1.3 * m exceeds
    10. *)
Theorem create_radar_chart_axis_max (df : DataFrame) (sel : list string) :
  sel <> [] ->
  (forall food, In food sel -> occurs df food) ->
  exists fig m c,
    create_radar_chart sel df = Ok fig /\
    radialaxis_range (layout fig) = Some (Some 0, Some c) /\
    largest_selected df sel m /\
    c == Qmax (1.3 * m) 10 /\
    10 <= c /\
    (10 < 1.3 * m -> c == 1.3 * m).
Proof.
  intros Hne Hocc. destruct sel as [|food rest]; [contradiction|].
  destruct (create_radar_chart_Ok df food rest) as [c0 [Hc Hfig]].
  set (rs := filter (fun row => isin (food :: rest) (Food_Name row))
                    (rows df)) in *.
  assert (Hrs : rs <> []).
  { destruct (Hocc food) as [r [Hin Hname]]; [now left|].
    assert (Hr : In r rs).
    { apply selected_filter. split; auto. rewrite Hname. now left. }
    intros E. rewrite E in Hr. exact Hr. }
  destruct (chart_max_of_spec rs Hrs) as [m [Hm [[r [Hr Hx]] Hub]]].
  rewrite Hm in Hc. inversion Hc; subst c0. clear Hc.
  exists (mkFigure (flat_map (traces_of df) (enumerate (food :: rest)))
            (mkLayout (Some true) (Some (Some 0, Some (larger (m * 1.3) 10)))
               None None None None (Some true) (Some 500%Z))),
         m, (larger (m * 1.3) 10).
  split; [exact Hfig|]. split; [reflexivity|]. split.
  { split.
    - exists r. split; auto. now apply selected_filter.
    - intros r' x Hr'. apply Hub. now apply selected_filter. }
  assert (Hcomm : m * 1.3 == 1.3 * m) by apply Qmult_comm.
  destruct (larger_cases (m * 1.3) 10) as [[Hle ->]|[Hlt ->]].
  - rewrite Hcomm in Hle. split; [|split].
    + rewrite Q.max_l by exact Hle. exact Hcomm.
    + rewrite Hcomm. exact Hle.
    + intros _. exact Hcomm.
  - rewrite Hcomm in Hlt. split; [|split].
    + rewrite Q.max_r by (now apply Qlt_le_weak). reflexivity.
    + apply Qle_refl.
    + intros H. exfalso. exact (Qlt_irrefl _ (Qlt_trans _ _ _ H Hlt)).
Qed.

Lemma create_radar_chart_axis_max_witness :
  ["Spinach"; "Lentils"] <> [] /\
  (forall food, In food ["Spinach"; "Lentils"] -> occurs two_foods food) /\
  exists fig m c,
    create_radar_chart ["Spinach"; "Lentils"] two_foods = Ok fig /\
    radialaxis_range (layout fig) = Some (Some 0, Some c) /\
    largest_selected two_foods ["Spinach"; "Lentils"] m /\
    10 <= c.
Proof.
  assert (H0 : ["Spinach"; "Lentils"] <> []) by discriminate.
  assert (H : forall food,
             In food ["Spinach"; "Lentils"] -> occurs two_foods food).
  { intros food [<-|[<-|[]]].
    - exists spinach. split; [left|]; reflexivity.
    - exists lentils. split; [right; left|]; reflexivity. }
  split; [exact H0|]. split; [exact H|].
  destruct (create_radar_chart_axis_max two_foods _ H0 H)
    as [fig [m [c [H1 [H2 [H3 [_ [H4 _]]]]]]]].
  exists fig, m, c. auto.
Defined.

End RadialScale.

(** ** Percentile levels *)

Section Levels.

Import Samples.

Lemma ge_reaches (value : Q) (threshold : float) :
  ge (Some value) threshold = true <-> reaches value threshold.
Proof.
  unfold reaches. destruct threshold as [t|]; simpl.
  - rewrite Qle_bool_iff. split.
    + intros H. now exists t.
    + intros [t' [E H]]. now inversion E; subst.
  - split; [discriminate|]. intros [t [E _]]. discriminate.
Qed.

Lemma first_match_classify (value : Q) (bs : list (float * string))
    (otherwise label : string) :
  first_match value bs otherwise label <-> label = classify value bs otherwise.
Proof.
  split.
  - induction 1 as [o|t l rest o Hr|t l rest o found Hn _ IH];
      cbn [classify].
    + reflexivity.
    + apply ge_reaches in Hr. now rewrite Hr.
    + destruct (ge (Some value) t) eqn:E; auto.
      apply ge_reaches in E. contradiction.
  - intros ->. induction bs as [|[t l] rest IH]; cbn [classify].
    + constructor.
    + destruct (ge (Some value) t) eqn:E.
      * constructor. now apply ge_reaches.
      * apply first_match_later; auto.
        intros H. apply ge_reaches in H. congruence.
Qed.

Lemma insert_asc_cons (x : Q) (l : list Q) : insert_asc x l <> [].
Proof. destruct l as [|h t]; simpl; [|destruct (Qle_bool x h)]; discriminate. Qed.

Lemma quantile_number (s : list Q) (q : Q) :
  s <> [] -> exists t, quantile s q = Some t.
Proof.
  intros Hne. unfold quantile.
  destruct (sort_values s) as [|a0 a] eqn:E; [|eauto].
  destruct s as [|x rest]; [contradiction|].
  simpl in E. now apply insert_asc_cons in E.
Qed.

(** C1.  For every dataset, nutrient and value, the level the classifier
    gives the value is the label of the first bucket, in the order
    p95 "Top 5%", p90 "Top 10%", p75 "High", p50 "Above Average",
    p25 "Average", whose threshold the value reaches, and "Below Average"
    when it reaches none; a threshold is reached by the values greater
    than or equal to it.  In particular the 95th percentile itself is
    classified "Top 5%", not "Top 10%"; a non-empty dataset has such a
    percentile. *)
Theorem get_nutrient_level_first_match (df : DataFrame)
    (nutrient : NutrientKind) (value : Q) :
  let p := percentiles df nutrient in
  (forall label,
      first_match value (buckets p) "Below Average" label <->
      label = get_nutrient_level (percentiles df) value nutrient) /\
  (forall t, p95 p = Some t ->
             get_nutrient_level (percentiles df) t nutrient = "Top 5%" /\
             get_nutrient_level (percentiles df) t nutrient <> "Top 10%") /\
  (rows df <> [] -> exists t, p95 p = Some t).
Proof.
  intros p. split; [|split].
  - intros label. apply first_match_classify.
  - intros t Ht.
    assert (E : get_nutrient_level (percentiles df) t nutrient = "Top 5%").
    { unfold get_nutrient_level. fold p. rewrite Ht. simpl.
      now rewrite (proj2 (Qle_bool_iff t t) (Qle_refl t)). }
    rewrite E. split; [reflexivity | discriminate].
  - intros Hne. apply quantile_number.
    destruct (rows df); [contradiction | discriminate].
Qed.

Lemma get_nutrient_level_first_match_witness :
  rows two_foods <> [] /\
  exists t,
    p95 (percentiles two_foods Protein) = Some t /\
    get_nutrient_level (percentiles two_foods) t Protein = "Top 5%".
Proof.
  assert (H : rows two_foods <> []) by discriminate.
  split; [exact H|].
  destruct (get_nutrient_level_first_match two_foods Protein 0)
    as [_ [Hb Hex]].
  destruct (Hex H) as [t Ht].
  exists t. split; [exact Ht|]. exact (proj1 (Hb t Ht)).
Defined.

End Levels.

(** ** Top performers *)

Section TopPerformers.

Import Samples.

Variable col : FoodRecord -> Q.

(** Rows by decreasing cell: a later row has no larger cell. *)
Let before (a b : FoodRecord) : Prop := col b <= col a.

Lemma insert_desc_perm (r : FoodRecord) (l : list FoodRecord) :
  Permutation (insert_desc col r l) (r :: l).
Proof.
  induction l as [|h t IH]; simpl; auto.
  destruct (Qle_bool (col h) (col r)); auto.
  rewrite IH. apply perm_swap.
Qed.

Lemma sort_values_desc_perm (rs : list FoodRecord) :
  Permutation (sort_values_desc col rs) rs.
Proof.
  induction rs as [|r rs IH]; simpl; auto.
  rewrite insert_desc_perm. now constructor.
Qed.

Lemma insert_desc_sorted (r : FoodRecord) (l : list FoodRecord) :
  StronglySorted before l -> StronglySorted before (insert_desc col r l).
Proof.
  induction l as [|h t IH]; intros Hs; simpl.
  - constructor; constructor.
  - inversion Hs as [|h' t' Ht Hall]; subst.
    destruct (Qle_bool (col h) (col r)) eqn:E.
    + apply Qle_bool_iff in E. constructor; auto.
      constructor; auto.
      eapply Forall_impl; [|exact Hall].
      intros x Hx. unfold before in *. now apply Qle_trans with (col h).
    + assert (Hlt : col r <= col h).
      { apply Qlt_le_weak, Qnot_le_lt. intros H.
        apply Qle_bool_iff in H. congruence. }
      constructor; auto.
      apply (Permutation_Forall (Permutation_sym (insert_desc_perm r t))).
      constructor; auto.
Qed.

Lemma sort_values_desc_sorted (rs : list FoodRecord) :
  StronglySorted before (sort_values_desc col rs).
Proof.
  induction rs as [|r rs IH]; simpl.
  - constructor.
  - now apply insert_desc_sorted.
Qed.

Lemma StronglySorted_app_inv {A : Type} (R : A -> A -> Prop) (l1 l2 : list A) :
  StronglySorted R (l1 ++ l2) ->
  StronglySorted R l1 /\
  forall a b, In a l1 -> In b l2 -> R a b.
Proof.
  induction l1 as [|x l1 IH]; simpl; intros Hs.
  - split; [constructor | intros a b []].
  - inversion Hs as [|x' l' Hl Hall]; subst.
    destruct (IH Hl) as [Hs1 Hcross].
    apply Forall_app in Hall. destruct Hall as [H1 H2].
    split; [now constructor|].
    intros a b [<-|Ha] Hb.
    + rewrite Forall_forall in H2. now apply H2.
    + now apply Hcross.
Qed.

Lemma descending_map (l : list FoodRecord) :
  StronglySorted before l -> descending (map col l).
Proof.
  unfold descending. induction 1 as [|a l Hs IH Hall]; simpl.
  - constructor.
  - constructor; auto.
    apply Forall_map. exact Hall.
Qed.

(** The rows [nlargest] keeps and those it leaves: together they are the
    frame; the kept ones are [n], or all when there are fewer; they are in
    decreasing order, and none of those left has a larger cell. *)
Lemma nlargest_spec (n : nat) (df : DataFrame) :
  nutrient_dtype df = float64 ->
  exists top rest,
    nlargest n col df = Ok top /\
    Permutation (rows df) (rows top ++ rest) /\
    List.length (rows top) = Nat.min n (List.length (rows df)) /\
    StronglySorted before (rows top) /\
    forall a b, In a (rows top) -> In b rest -> col b <= col a.
Proof.
  intros Hd. unfold nlargest. rewrite Hd.
  set (l := sort_values_desc col (rows df)).
  eexists. exists (skipn n l). split; [reflexivity|]. cbn [rows].
  assert (Hs : StronglySorted before (firstn n l ++ skipn n l)).
  { rewrite firstn_skipn. apply sort_values_desc_sorted. }
  destruct (StronglySorted_app_inv _ _ _ Hs) as [H1 H2].
  split; [|split; [|split]]; auto.
  - rewrite firstn_skipn. symmetry. apply sort_values_desc_perm.
  - rewrite length_firstn. f_equal.
    apply Permutation_length, sort_values_desc_perm.
Qed.

End TopPerformers.

Section TopPerformersClaims.

Import Samples.

(** A column of type [object_] is refused. *)
Lemma create_enhanced_top_performers_object (df : DataFrame)
    (nutrient : NutrientKind) :
  nutrient_dtype df = object_ ->
  create_enhanced_top_performers df nutrient = Raise TypeError.
Proof.
  intros Hd. unfold create_enhanced_top_performers, nlargest.
  now rewrite Hd.
Qed.

(** The figure made of the rows [nlargest] returns. *)
Lemma create_enhanced_top_performers_Ok (df : DataFrame)
    (nutrient : NutrientKind) (top : DataFrame) :
  nlargest 15 (nutrient_map nutrient) df = Ok top ->
  exists fig,
    create_enhanced_top_performers df nutrient = Ok fig /\
    data fig = [TBar (bar_of df nutrient (rows top))] /\
    yaxis_categoryorder (layout fig) = Some "total ascending".
Proof.
  intros Htop. unfold create_enhanced_top_performers. rewrite Htop.
  eexists. split; [reflexivity|]. split; reflexivity.
Qed.

Lemma create_enhanced_top_performers_inv (df : DataFrame)
    (nutrient : NutrientKind) (fig : Figure) :
  create_enhanced_top_performers df nutrient = Ok fig ->
  exists top,
    nlargest 15 (nutrient_map nutrient) df = Ok top /\
    data fig = [TBar (bar_of df nutrient (rows top))].
Proof.
  intros Hfig.
  destruct (nlargest 15 (nutrient_map nutrient) df) as [top|e] eqn:E.
  - destruct (create_enhanced_top_performers_Ok df nutrient top E)
      as [fig' [Hfig' [Hdata _]]].
    rewrite Hfig in Hfig'. injection Hfig' as <-. eauto.
  - unfold create_enhanced_top_performers in Hfig. rewrite E in Hfig.
    discriminate.
Qed.

(** C2 (as the claim states it, refuted).  Of spinach (2.9 g of protein)
    and lentils (9.0 g) the builder lists lentils first: its series runs
    from the largest value down, not up. *)
Lemma create_enhanced_top_performers_not_ascending :
  exists fig bar,
    create_enhanced_top_performers two_foods Protein = Ok fig /\
    data fig = [TBar bar] /\
    bar_y bar = ["Lentils"; "Spinach"] /\
    bar_x bar = [9.0; 2.9] /\
    ~ ascending (bar_x bar).
Proof.
  eexists; eexists. split; [reflexivity|]. split; [reflexivity|].
  split; [reflexivity|]. split; [reflexivity|].
  intros H. inversion H as [|a l _ Hall]; subst.
  inversion Hall as [|b l' Hle _]; subst.
  apply Hle. reflexivity.
Qed.

(** C2 (amended).  For every dataset whose nutrient columns hold numbers,
    as those of every file with a data row do, and every nutrient, the
    series of the top-performers builder holds exactly 15 records, or all
    of them when the dataset has fewer; they are the records with the
    largest values of the selected nutrient (no record left out has a
    larger value), each under its display name, and they are sorted
    descending by that value.  The ascending order is only asked of the
    charting library, through the axis setting categoryorder
    "total ascending". *)
Theorem create_enhanced_top_performers_series (df : DataFrame)
    (nutrient : NutrientKind) :
  nutrient_dtype df = float64 ->
  exists fig bar top rest,
    create_enhanced_top_performers df nutrient = Ok fig /\
    data fig = [TBar bar] /\
    Permutation (rows df) (top ++ rest) /\
    List.length top = Nat.min 15 (List.length (rows df)) /\
    (forall a b,
        In a top -> In b rest -> nutrient_map nutrient b <= nutrient_map nutrient a) /\
    bar_x bar = map (nutrient_map nutrient) top /\
    bar_y bar = map Display_Name (map Food_Name top) /\
    map hover_food (bar_hovertemplate bar) = map Food_Name top /\
    descending (bar_x bar) /\
    yaxis_categoryorder (layout fig) = Some "total ascending".
Proof.
  intros Hd.
  destruct (nlargest_spec (nutrient_map nutrient) 15 df Hd)
    as [top [rest [Htop [Hperm [Hlen [Hsorted Hcross]]]]]].
  destruct (create_enhanced_top_performers_Ok df nutrient top Htop)
    as [fig [Hfig [Hdata Hlay]]].
  exists fig, (bar_of df nutrient (rows top)), (rows top), rest.
  cbn [bar_of bar_x bar_y bar_hovertemplate].
  repeat split; auto.
  - now rewrite map_map.
  - now apply descending_map.
Qed.

Lemma create_enhanced_top_performers_series_witness :
  nutrient_dtype two_foods = float64 /\
  exists fig bar,
    create_enhanced_top_performers two_foods Carbs = Ok fig /\
    data fig = [TBar bar] /\
    descending (bar_x bar).
Proof.
  assert (H : nutrient_dtype two_foods = float64) by reflexivity.
  split; [exact H|].
  destruct (create_enhanced_top_performers_series two_foods Carbs H)
    as [fig [bar [top [rest [H1 [H2 [_ [_ [_ [_ [_ [_ [H3 _]]]]]]]]]]]]].
  exists fig, bar. auto.
Defined.

End TopPerformersClaims.

(** ** The specification's example *)

Section SpecExample.

Import Samples.

(** Spinach and lentils selected: two polygons of four values each, and a
    radial axis that ends at 1.3 * 20.1 = 26.13. *)
Example radar_of_spinach_and_lentils :
  exists fig,
    create_radar_chart ["Spinach"; "Lentils"] two_foods = Ok fig /\
    map polar_r (polygons (data fig))
    = [[2.9; 0.4; 2.2; 3.6]; [9.0; 0.4; 7.9; 20.1]] /\
    axis_max fig = Some (Some 26.13).
Proof. eexists. repeat split. Qed.

(** The incomplete row of the sample table is dropped on loading, and the
    headers lose their surrounding blanks. *)
Example load_of_gappy_table :
  load_data (Table gappy_table)
  = ([], Ok (Some two_foods)).
Proof. reflexivity. Qed.

(** A page for a missing file shows the message and nothing else. *)
Example page_of_missing_file :
  main Missing ["Spinach"] Fiber
  = ([error "Please upload your csv file to use this app." None], Ok tt).
Proof. reflexivity. Qed.

End SpecExample.

(** * Further properties of the program *)

(** ** Lengths of the names shown *)

Section NameLengths.

Lemma length_append (s1 s2 : string) :
  String.length (s1 ++ s2) = (String.length s1 + String.length s2)%nat.
Proof. induction s1 as [|c s1 IH]; simpl; auto. Qed.

(** X1.  The legend entry of a food in the radar chart is never longer
    than 20 characters: a name of at most 20 characters, so also one of
    exactly 20, is its own entry, and a longer one is cut to its first 17
    characters, followed by three dots. *)
Theorem display_name_length (food : string) :
  len (display_name food) = Nat.min (len food) 20 /\
  ((len food <= 20)%nat -> display_name food = food) /\
  ((20 < len food)%nat ->
   exists kept cut,
     food = kept ++ cut /\ len kept = 17%nat /\
     display_name food = kept ++ "...").
Proof.
  unfold display_name. destruct (Nat.leb_spec (len food) 20) as [H|H].
  - split; [lia|]. split; [reflexivity | lia].
  - destruct (slice_to_split 17 food) as [cut [Hf Hl]]; [lia|].
    split; [|split].
    + unfold len in *. rewrite length_append, Hl. simpl. lia.
    + lia.
    + intros _. exists (slice_to 17 food), cut. auto.
Qed.

Lemma display_name_length_witness :
  (len "Amaranth Leaves Green" = 21)%nat /\
  (len "Amaranth Leaves Pale" <= 20)%nat /\
  display_name "Amaranth Leaves Pale" = "Amaranth Leaves Pale" /\
  (20 < len "Amaranth Leaves Green")%nat /\
  exists kept cut,
    "Amaranth Leaves Green" = kept ++ cut /\ len kept = 17%nat /\
    display_name "Amaranth Leaves Green" = kept ++ "...".
Proof.
  assert (H1 : (len "Amaranth Leaves Pale" <= 20)%nat) by (vm_compute; lia).
  assert (H2 : (20 < len "Amaranth Leaves Green")%nat) by (vm_compute; lia).
  split; [reflexivity|]. split; [exact H1|].
  split; [exact (proj1 (proj2 (display_name_length _)) H1)|].
  split; [exact H2|].
  exact (proj2 (proj2 (display_name_length _)) H2).
Defined.

(** X2.  In the top-performers chart a name that is cut is shown with
    exactly 28 characters, so the name shown is never longer than 28
    characters, and it is longer than the name itself exactly for the
    names of 26 and 27 characters. *)
Theorem Display_Name_length (x : string) :
  len (Display_Name x) = (if (25 <? len x)%nat then 28%nat else len x) /\
  (len (Display_Name x) <= 28)%nat /\
  ((len x < len (Display_Name x))%nat <-> len x = 26%nat \/ len x = 27%nat).
Proof.
  assert (E : len (Display_Name x)
              = (if (25 <? len x)%nat then 28%nat else len x)).
  { unfold Display_Name. destruct (Nat.ltb_spec 25 (len x)) as [H|H]; auto.
    destruct (slice_to_split 25 x) as [cut [_ Hl]]; [lia|].
    unfold len in *. rewrite length_append, Hl. reflexivity. }
  rewrite E. destruct (Nat.ltb_spec 25 (len x)); repeat split; lia.
Qed.

End NameLengths.

(** ** Radar chart: what is drawn *)

Section RadarDrawn.

Import Samples.

Lemma traces_drawn (df : DataFrame) (entries : list (nat * string)) :
  flat_map (traces_of df) entries = map TScatterpolar (drawn df entries).
Proof.
  unfold drawn. induction entries as [|e rest IH]; simpl; auto.
  rewrite IH, map_app. f_equal.
  unfold traces_of. now destruct (record_of df (snd e)).
Qed.

Lemma found_record_of (df : DataFrame) (food : string) :
  found df food
  = match record_of df food with Some _ => true | None => false end.
Proof.
  unfold found, record_of. induction (rows df) as [|r rs IH]; simpl; auto.
  now destruct (String.eqb (Food_Name r) food).
Qed.

Lemma drawn_names (df : DataFrame) (sel : list string) (k : nat) :
  map polar_name (drawn df (combine (seq k (List.length sel)) sel))
  = map display_name (filter (found df) sel).
Proof.
  unfold drawn. revert k. induction sel as [|food rest IH]; intros k; simpl; auto.
  rewrite map_app, IH, found_record_of.
  now destruct (record_of df food).
Qed.

Lemma drawn_In (df : DataFrame) (entries : list (nat * string))
    (p : Scatterpolar) :
  In p (drawn df entries) ->
  exists i food r,
    In (i, food) entries /\ record_of df food = Some r /\
    p = polygon_of i food r.
Proof.
  unfold drawn. intros H. apply in_flat_map in H.
  destruct H as [[i food] [He Hp]]. simpl in Hp.
  destruct (record_of df food) as [r|] eqn:E; [|contradiction].
  destruct Hp as [<-|[]]. exists i, food, r. auto.
Qed.

(** The figure of a non-empty selection. *)
Lemma create_radar_chart_drawn (df : DataFrame) (food : string)
    (rest : list string) :
  exists c,
    chart_max_of
      (filter (fun row => isin (food :: rest) (Food_Name row)) (rows df))
    = Ok c /\
    create_radar_chart (food :: rest) df
    = Ok (mkFigure
            (map TScatterpolar (drawn df (enumerate (food :: rest))))
            (mkLayout (Some true) (Some (Some 0, c)) None None None None
               (Some true) (Some 500%Z))).
Proof.
  destruct (create_radar_chart_Ok df food rest) as [c [Hc Hfig]].
  exists c. split; [exact Hc|]. now rewrite <- traces_drawn.
Qed.

(** X3.  The radar builder never fails, whatever the selection and the
    dataset, and it skips, without a message, the selected names that the
    dataset does not have: its traces are polygons, one for each selected
    name that occurs in the dataset, in the order of the selection and
    under the legend entry of that name. *)
Theorem create_radar_chart_skips_unknown (df : DataFrame)
    (sel : list string) :
  exists fig,
    create_radar_chart sel df = Ok fig /\
    data fig = map TScatterpolar (polygons (data fig)) /\
    map polar_name (polygons (data fig))
    = map display_name (filter (found df) sel) /\
    List.length (polygons (data fig)) = List.length (filter (found df) sel).
Proof.
  destruct sel as [|food rest].
  - exists new_figure. repeat split.
  - destruct (create_radar_chart_drawn df food rest) as [c [_ Hfig]].
    eexists. split; [exact Hfig|]. cbn [data].
    rewrite polygons_map. split; [reflexivity|].
    assert (Hn : map polar_name (drawn df (enumerate (food :: rest)))
                 = map display_name (filter (found df) (food :: rest)))
      by apply (drawn_names df (food :: rest) 0).
    split; [exact Hn|].
    rewrite <- (length_map polar_name), Hn. apply length_map.
Qed.

(** X4.  The polygons of a selection of at most five foods have pairwise
    different colours; a polygon is always filled with the colour of its
    line. *)
Theorem create_radar_chart_colours (df : DataFrame) (sel : list string) :
  (List.length sel <= 5)%nat ->
  exists fig,
    create_radar_chart sel df = Ok fig /\
    NoDup (map polar_line_color (polygons (data fig))) /\
    Forall (fun p => polar_fillcolor p = polar_line_color p)
           (polygons (data fig)).
Proof.
  intros Hlen. destruct sel as [|food rest].
  - exists new_figure. repeat split; constructor.
  - destruct (create_radar_chart_drawn df food rest) as [c [_ Hfig]].
    eexists. split; [exact Hfig|]. cbn [data]. rewrite polygons_map.
    split.
    + do 5 (try destruct rest as [|? rest]); simpl in Hlen; try lia;
        unfold drawn, enumerate; simpl;
        repeat match goal with
               | |- context [record_of df ?x] => destruct (record_of df x)
               end;
        simpl; repeat constructor; simpl; intuition discriminate.
    + apply Forall_forall. intros p Hp.
      apply drawn_In in Hp. destruct Hp as [i [f [r [_ [_ ->]]]]].
      reflexivity.
Qed.

Lemma create_radar_chart_colours_witness :
  (List.length ["Spinach"; "Okra"; "Lentils"] <= 5)%nat /\
  exists fig,
    create_radar_chart ["Spinach"; "Okra"; "Lentils"] two_foods = Ok fig /\
    NoDup (map polar_line_color (polygons (data fig))).
Proof.
  assert (H : (List.length ["Spinach"; "Okra"; "Lentils"] <= 5)%nat)
    by (simpl; lia).
  split; [exact H|].
  destruct (create_radar_chart_colours two_foods _ H) as [fig [H1 [H2 _]]].
  exists fig. auto.
Defined.

(** X5.  No polygon reaches beyond the radial axis: every value the radar
    chart draws is at most the upper end of the axis. *)
Theorem create_radar_chart_within_axis (df : DataFrame) (sel : list string)
    (fig : Figure) (c : Q) (p : Scatterpolar) (x : Q) :
  create_radar_chart sel df = Ok fig ->
  axis_max fig = Some (Some c) ->
  In p (polygons (data fig)) ->
  In x (polar_r p) ->
  x <= c.
Proof.
  destruct sel as [|food rest].
  - intros Hfig. inversion Hfig; subst fig. discriminate.
  - destruct (create_radar_chart_drawn df food rest) as [c0 [Hc Hfig]].
    rewrite Hfig. intros E. inversion E; subst fig. clear E.
    cbn [data]. rewrite polygons_map.
    intros Hax Hp Hx.
    unfold axis_max in Hax. simpl in Hax. inversion Hax; subst c0. clear Hax.
    apply (drawn_In df (enumerate (food :: rest))) in Hp.
    destruct Hp as [i [f [r [He [Hr ->]]]]].
    apply in_combine_r in He.
    destruct (record_of_named df f r Hr) as [Hin Hname].
    set (rs := filter (fun row => isin (food :: rest) (Food_Name row))
                      (rows df)) in *.
    assert (Hsel : In r rs).
    { apply selected_filter. split; auto. now rewrite Hname. }
    assert (Hrs : rs <> []) by (intros E; rewrite E in Hsel; exact Hsel).
    destruct (chart_max_of_spec rs Hrs) as [m [Hm [_ Hub]]].
    rewrite Hm in Hc. injection Hc as Hc'.
    assert (Hxm : x <= m) by (apply (Hub r x Hsel); exact Hx).
    rewrite <- Hc'.
    destruct (larger_cases (m * 1.3) 10) as [[Hle ->]|[Hlt ->]]; lra.
Qed.

Lemma create_radar_chart_within_axis_witness :
  exists fig,
    create_radar_chart ["Spinach"; "Lentils"] two_foods = Ok fig /\
    axis_max fig = Some (Some 26.13) /\
    In (polygon_of 1 "Lentils" lentils) (polygons (data fig)) /\
    In 20.1 (polar_r (polygon_of 1 "Lentils" lentils)) /\
    20.1 <= 26.13.
Proof.
  eexists. split; [reflexivity|]. split; [reflexivity|].
  split; [right; left; reflexivity|].
  split; [right; right; right; left; reflexivity|].
  exact (create_radar_chart_within_axis two_foods ["Spinach"; "Lentils"]
           _ 26.13 (polygon_of 1 "Lentils" lentils) 20.1
           eq_refl eq_refl (or_intror (or_introl eq_refl))
           (or_intror (or_intror (or_intror (or_introl eq_refl))))).
Defined.

End RadarDrawn.

(** ** Levels: order and extremes *)

Section LevelOrder.

Import Samples.

Lemma ge_mono (v w : Q) (t : float) :
  v <= w -> ge (Some v) t = true -> ge (Some w) t = true.
Proof.
  intros Hvw. destruct t as [t|]; simpl; auto.
  rewrite !Qle_bool_iff. intros H. now apply Qle_trans with v.
Qed.

Lemma ge_mono_false (v w : Q) (t : float) :
  v <= w -> ge (Some w) t = false -> ge (Some v) t = false.
Proof.
  intros Hvw Hw. destruct (ge (Some v) t) eqn:E; auto.
  rewrite (ge_mono v w t Hvw E) in Hw. discriminate.
Qed.

(** X6.  The classifier is monotone: of two values of a nutrient, the
    larger never gets the lower level, whatever the percentile table. *)
Theorem get_nutrient_level_monotone
    (table : NutrientKind -> PercentileTable) (nutrient : NutrientKind)
    (v w : Q) :
  v <= w ->
  (level_rank (get_nutrient_level table v nutrient)
   <= level_rank (get_nutrient_level table w nutrient))%nat.
Proof.
  intros Hvw. unfold get_nutrient_level.
  set (p := table nutrient).
  destruct (ge (Some w) (p95 p)) eqn:W95;
    [repeat destruct (ge (Some v) _); vm_compute; lia|].
  rewrite (ge_mono_false v w _ Hvw W95).
  destruct (ge (Some w) (p90 p)) eqn:W90;
    [repeat destruct (ge (Some v) _); vm_compute; lia|].
  rewrite (ge_mono_false v w _ Hvw W90).
  destruct (ge (Some w) (p75 p)) eqn:W75;
    [repeat destruct (ge (Some v) _); vm_compute; lia|].
  rewrite (ge_mono_false v w _ Hvw W75).
  destruct (ge (Some w) (p50 p)) eqn:W50;
    [repeat destruct (ge (Some v) _); vm_compute; lia|].
  rewrite (ge_mono_false v w _ Hvw W50).
  destruct (ge (Some w) (p25 p)) eqn:W25;
    [repeat destruct (ge (Some v) _); vm_compute; lia|].
  rewrite (ge_mono_false v w _ Hvw W25).
  vm_compute; lia.
Qed.

Lemma get_nutrient_level_monotone_witness :
  2.9 <= 9.0 /\
  (level_rank (get_nutrient_level (percentiles two_foods) 2.9 Protein)
   <= level_rank (get_nutrient_level (percentiles two_foods) 9.0 Protein))%nat.
Proof.
  assert (H : 2.9 <= 9.0) by (vm_compute; discriminate).
  split; [exact H|].
  exact (get_nutrient_level_monotone (percentiles two_foods) Protein _ _ H).
Defined.

Lemma insert_asc_In (x y : Q) (l : list Q) :
  In y (insert_asc x l) -> y = x \/ In y l.
Proof.
  induction l as [|h t IH]; simpl.
  - intros [<-|[]]. now left.
  - destruct (Qle_bool x h); simpl.
    + intros [<-|H]; auto.
    + intros [<-|H]; auto. destruct (IH H); auto.
Qed.

Lemma sort_values_In (y : Q) (s : list Q) :
  In y (sort_values s) -> In y s.
Proof.
  induction s as [|x s IH]; simpl; auto.
  intros H. apply insert_asc_In in H. destruct H as [->|H]; auto.
Qed.

Lemma nth_In_or_default {A : Type} (n : nat) (l : list A) (d : A) :
  In (nth n l d) l \/ nth n l d = d.
Proof.
  destruct (Nat.lt_ge_cases n (List.length l)).
  - left. now apply nth_In.
  - right. now apply nth_overflow.
Qed.

(** A quantile of a column lies below every upper bound of its cells. *)
Lemma quantile_le_bound (s : list Q) (q M t : Q) :
  (forall x, In x s -> x <= M) ->
  quantile s q = Some t -> t <= M.
Proof.
  intros HM. unfold quantile.
  destruct (sort_values s) as [|a0 a] eqn:E; [discriminate|].
  set (pos := q * inject_Z (Z.of_nat (List.length (a0 :: a)) - 1)).
  set (lo := Qfloor pos).
  set (lower := nth (Z.to_nat lo) (a0 :: a) a0).
  set (upper := nth (Z.to_nat lo + 1) (a0 :: a) lower).
  intros H. inversion H; subst t. clear H.
  assert (Hin : forall y, In y (a0 :: a) -> y <= M).
  { intros y Hy. apply HM, sort_values_In. now rewrite E. }
  assert (Hl : lower <= M).
  { destruct (nth_In_or_default (Z.to_nat lo) (a0 :: a) a0) as [H|H].
    - now apply Hin.
    - unfold lower. rewrite H. apply Hin. now left. }
  assert (Hu : upper <= M).
  { destruct (nth_In_or_default (Z.to_nat lo + 1) (a0 :: a) lower) as [H|H].
    - now apply Hin.
    - unfold upper. now rewrite H. }
  assert (H0 : 0 <= pos - inject_Z lo).
  { pose proof (Qfloor_le pos). fold lo in H. lra. }
  assert (H1 : pos - inject_Z lo <= 1).
  { pose proof (Qlt_floor pos) as H. fold lo in H.
    rewrite inject_Z_plus in H. change (inject_Z 1) with 1 in H. lra. }
  nra.
Qed.

(** A value that no cell of the column exceeds reaches the column's 95th
    percentile. *)
Lemma largest_reaches_p95 (df : DataFrame) (nutrient : NutrientKind)
    (r : FoodRecord) :
  In r (rows df) ->
  (forall r', In r' (rows df) ->
              nutrient_map nutrient r' <= nutrient_map nutrient r) ->
  ge (Some (nutrient_map nutrient r)) (p95 (percentiles df nutrient)) = true.
Proof.
  intros Hin Hmax. unfold percentiles. cbn [p95].
  set (col := map (nutrient_map nutrient) (rows df)).
  destruct (quantile_number col 0.95) as [t Ht].
  { intros E. apply (in_map (nutrient_map nutrient)) in Hin.
    fold col in Hin. rewrite E in Hin. exact Hin. }
  rewrite Ht.
  assert (Hle : t <= nutrient_map nutrient r).
  { apply (quantile_le_bound col 0.95 _ t); auto.
    intros x Hx. apply in_map_iff in Hx. destruct Hx as [r' [<- Hr']].
    now apply Hmax. }
  cbn [ge]. now apply Qle_bool_iff.
Qed.

(** X7.  In every dataset, a food whose value of a nutrient no other food
    exceeds is classified "Top 5%" for that nutrient; so when all foods
    have the same value, all of them are. *)
Theorem get_nutrient_level_of_largest (df : DataFrame)
    (nutrient : NutrientKind) (r : FoodRecord) :
  In r (rows df) ->
  (forall r', In r' (rows df) ->
              nutrient_map nutrient r' <= nutrient_map nutrient r) ->
  get_nutrient_level (percentiles df) (nutrient_map nutrient r) nutrient
  = "Top 5%".
Proof.
  intros Hin Hmax. unfold get_nutrient_level.
  rewrite (largest_reaches_p95 df nutrient r Hin Hmax).
  reflexivity.
Qed.

Lemma get_nutrient_level_of_largest_witness :
  In lentils (rows two_foods) /\
  get_nutrient_level (percentiles two_foods) (carb_g lentils) Carbs
  = "Top 5%".
Proof.
  assert (H : In lentils (rows two_foods)) by (right; left; reflexivity).
  split; [exact H|].
  apply (get_nutrient_level_of_largest two_foods Carbs lentils H).
  intros r' [<-|[<-|[]]]; vm_compute; discriminate.
Defined.

End LevelOrder.

(** ** Top performers: the first bar, and small datasets *)

Section TopBars.

Import Samples.

Lemma hover_of_hover_text (table : NutrientKind -> PercentileTable)
    (n : NutrientKind) (r : FoodRecord) :
  hover_of n (hover_text table r)
  = (nutrient_map n r, get_nutrient_level table (nutrient_map n r) n).
Proof. now destruct n. Qed.

(** The first row [nlargest] keeps has the largest cell of the frame. *)
Lemma nlargest_head (col : FoodRecord -> Q) (n : nat) (df top : DataFrame)
    (r : FoodRecord) :
  nlargest n col df = Ok top ->
  hd_error (rows top) = Some r ->
  In r (rows df) /\ forall r', In r' (rows df) -> col r' <= col r.
Proof.
  intros Htop Hhd.
  assert (Hd : nutrient_dtype df = float64).
  { unfold nlargest in Htop.
    destruct (nutrient_dtype df); [reflexivity | discriminate]. }
  destruct (nlargest_spec col n df Hd)
    as [top' [rest [Htop' [Hperm [_ [Hsorted Hcross]]]]]].
  rewrite Htop in Htop'. injection Htop' as <-.
  destruct (rows top) as [|r0 kept]; [discriminate|].
  inversion Hhd; subst r0. clear Hhd.
  split.
  - apply (Permutation_in r (Permutation_sym Hperm)). now left.
  - intros r' Hr'. apply (Permutation_in r' Hperm) in Hr'.
    apply in_app_or in Hr'. destruct Hr' as [[<-|Hr']|Hr'].
    + apply Qle_refl.
    + inversion Hsorted as [|a l _ Hall]; subst.
      rewrite Forall_forall in Hall. now apply Hall.
    + apply Hcross; auto. now left.
Qed.

(** X8.  In the top-performers chart every bar carries the hover text of
    its own food, whose value for the ranked nutrient is the length of the
    bar; and the first bar, the food richest in the ranked nutrient, is
    always reported as "Top 5%" for it. *)
Theorem create_enhanced_top_performers_first_bar (df : DataFrame)
    (nutrient : NutrientKind) (fig : Figure) (bar : Bar) (h : HoverText) :
  create_enhanced_top_performers df nutrient = Ok fig ->
  data fig = [TBar bar] ->
  hd_error (bar_hovertemplate bar) = Some h ->
  map (fun h' => fst (hover_of nutrient h')) (bar_hovertemplate bar)
  = bar_x bar /\
  snd (hover_of nutrient h) = "Top 5%".
Proof.
  intros Hfig Hdata.
  destruct (create_enhanced_top_performers_inv df nutrient fig Hfig)
    as [top [Htop E0]].
  rewrite E0 in Hdata. injection Hdata as <-.
  cbn [bar_of bar_x bar_hovertemplate].
  intros Hh. split.
  - rewrite map_map. apply map_ext. intros r.
    now rewrite hover_of_hover_text.
  - destruct (rows top) as [|r kept] eqn:E; [discriminate|].
    simpl in Hh. inversion Hh; subst h. clear Hh.
    rewrite hover_of_hover_text. cbn [snd].
    destruct (nlargest_head (nutrient_map nutrient) 15 df top r Htop)
      as [Hin Hmax].
    { now rewrite E. }
    unfold get_nutrient_level.
    now rewrite (largest_reaches_p95 df nutrient r Hin Hmax).
Qed.

Lemma create_enhanced_top_performers_first_bar_witness :
  exists fig bar h,
    create_enhanced_top_performers two_foods Protein = Ok fig /\
    data fig = [TBar bar] /\
    hd_error (bar_hovertemplate bar) = Some h /\
    hover_food h = "Lentils" /\
    snd (hover_of Protein h) = "Top 5%".
Proof.
  eexists; eexists; eexists. split; [reflexivity|]. split; [reflexivity|].
  split; [reflexivity|]. split; [reflexivity|].
  exact (proj2 (create_enhanced_top_performers_first_bar two_foods Protein
                  _ _ _ eq_refl eq_refl eq_refl)).
Defined.

(** X9.  A dataset of at most 15 foods whose nutrient columns hold
    numbers is charted whole: the bars are the values of all its records,
    and the hover texts name all its foods, each as often as the dataset
    lists it.  A dataset whose nutrient columns have the type of objects,
    as the one of a file with a header row only has, is not charted: the
    builder raises [TypeError]. *)
Theorem create_enhanced_top_performers_small (df : DataFrame)
    (nutrient : NutrientKind) :
  (List.length (rows df) <= 15)%nat ->
  match nutrient_dtype df with
  | float64 =>
      exists fig bar,
        create_enhanced_top_performers df nutrient = Ok fig /\
        data fig = [TBar bar] /\
        Permutation (bar_x bar) (map (nutrient_map nutrient) (rows df)) /\
        Permutation (map hover_food (bar_hovertemplate bar))
                    (map Food_Name (rows df))
  | object_ => create_enhanced_top_performers df nutrient = Raise TypeError
  end.
Proof.
  intros Hlen. destruct (nutrient_dtype df) eqn:Hd.
  - destruct (nlargest_spec (nutrient_map nutrient) 15 df Hd)
      as [top [rest [Htop [Hperm [Hlen' _]]]]].
    destruct (create_enhanced_top_performers_Ok df nutrient top Htop)
      as [fig [Hfig [Hdata _]]].
    exists fig, (bar_of df nutrient (rows top)).
    split; [exact Hfig|]. split; [exact Hdata|].
    cbn [bar_of bar_x bar_hovertemplate].
    assert (Hrest : rest = []).
    { apply Permutation_length in Hperm. rewrite length_app in Hperm.
      destruct rest; [reflexivity | simpl in Hperm; lia]. }
    subst rest. rewrite app_nil_r in Hperm. split.
    + apply Permutation_map. now symmetry.
    + rewrite map_map. cbn [hover_text hover_food].
      apply (Permutation_map Food_Name). now symmetry.
  - now apply create_enhanced_top_performers_object.
Qed.

Lemma create_enhanced_top_performers_small_witness :
  (List.length (rows two_foods) <= 15)%nat /\
  exists fig bar,
    create_enhanced_top_performers two_foods Fiber = Ok fig /\
    data fig = [TBar bar] /\
    Permutation (bar_x bar) (map tot_fib_g (rows two_foods)).
Proof.
  assert (H : (List.length (rows two_foods) <= 15)%nat) by (simpl; lia).
  split; [exact H|].
  destruct (create_enhanced_top_performers_small two_foods Fiber H)
    as [fig [bar [H1 [H2 [H3 _]]]]].
  exists fig, bar. auto.
Defined.

End TopBars.

(** ** The loader: columns never read, and headers *)

Section LoaderMore.

Import Samples.






Lemma lstrip_spec (s : string) :
  exists l,
    s = l ++ lstrip s /\ blank l = true /\ first_space (lstrip s) = false.
Proof.
  induction s as [|c rest [l [Hs [Hb Hf]]]]; simpl.
  - exists "". auto.
  - destruct (isspace c) eqn:E.
    + exists (String c l). simpl. rewrite E, Hb, <- Hs. auto.
    + exists "". simpl. auto.
Qed.

Lemma rstrip_spec (s : string) :
  exists r,
    s = rstrip s ++ r /\ blank r = true /\ last_space (rstrip s) = false /\
    (first_space s = false -> first_space (rstrip s) = false).
Proof.
  induction s as [|c rest [r [Hs [Hb [Hl Hf]]]]]; simpl.
  - exists "". auto.
  - destruct (rstrip rest) as [|c' kept] eqn:E.
    + simpl in Hs. subst r. destruct (isspace c) eqn:Ec.
      * exists (String c rest). simpl. rewrite Ec, Hb. auto.
      * exists rest. simpl. auto.
    + exists r. simpl. rewrite Hs at 1. simpl. auto.
Qed.

(** What [strip] does to a string: it takes blanks, and only blanks, off
    both ends, until neither end is a blank. *)
Lemma strip_spec (s : string) :
  exists l r,
    s = l ++ strip s ++ r /\ blank l = true /\ blank r = true /\
    first_space (strip s) = false /\ last_space (strip s) = false.
Proof.
  unfold strip.
  destruct (lstrip_spec s) as [l [Hs [Hbl Hf]]].
  destruct (rstrip_spec (lstrip s)) as [r [Hr [Hbr [Hl Hf']]]].
  exists l, r. split; [|auto].
  rewrite <- Hr. exact Hs.
Qed.

(** X11.  The headers of the loaded dataset are the headers of the source,
    one for one, each without the blanks around it and otherwise as it
    was: a loaded header neither begins nor ends with a blank. *)
Theorem load_data_strips_headers (raw : RawFrame) (df : DataFrame) :
  loads (Table raw) df ->
  Forall2 (fun source loaded =>
             exists l r,
               source = l ++ loaded ++ r /\
               blank l = true /\ blank r = true /\
               first_space loaded = false /\ last_space loaded = false)
          (raw_columns raw) (columns df).
Proof.
  intros Hload.
  destruct (loads_inv _ _ Hload) as [raw' [Hsrc Hdf]].
  inversion Hsrc; subst raw'; subst df; simpl.
  induction (raw_columns raw) as [|h hs IH]; simpl; constructor; auto.
  apply strip_spec.
Qed.

Lemma load_data_strips_headers_witness :
  loads (Table gappy_table) two_foods /\
  Forall2 (fun source loaded =>
             exists l r,
               source = l ++ loaded ++ r /\
               blank l = true /\ blank r = true /\
               first_space loaded = false /\ last_space loaded = false)
          header (columns two_foods).
Proof.
  assert (L : loads (Table gappy_table) two_foods) by reflexivity.
  split; [exact L|].
  exact (load_data_strips_headers gappy_table two_foods L).
Defined.

End LoaderMore.

(** ** The page of a loaded table *)

Section Page.

Import Samples.

Lemma show_top_performers_calls (df : DataFrame) (n : NutrientKind)
    (note : string) :
  show_top_performers df n note = (top_calls df n note, Ok tt).
Proof.
  unfold show_top_performers, top_calls.
  now destruct (create_enhanced_top_performers df n).
Qed.

Lemma main_unselected (raw : RawFrame) (n : NutrientKind) :
  main (Table raw) [] n
  = ((page_head (dropna (strip_columns raw))
      ++ page_unselected (dropna (strip_columns raw)))%list, Ok tt).
Proof.
  unfold main.
  cbv [load_data try_except bind lift read_csv call ret always show_scatter
       app fst snd].
  rewrite show_top_performers_calls. reflexivity.
Qed.

Lemma main_selected (raw : RawFrame) (food : string) (rest : list string)
    (n : NutrientKind) :
  exists radar,
    create_radar_chart (food :: rest) (dropna (strip_columns raw)) = Ok radar /\
    main (Table raw) (food :: rest) n
    = ((page_head (dropna (strip_columns raw))
        ++ page_selected (dropna (strip_columns raw)) (food :: rest) n radar)%list,
       Ok tt).
Proof.
  destruct (create_radar_chart_drawn (dropna (strip_columns raw)) food rest)
    as [c [_ Hfig]].
  eexists. split; [exact Hfig|].
  unfold main.
  cbv [load_data try_except bind lift read_csv call ret always show_scatter
       app fst snd].
  rewrite Hfig, show_top_performers_calls. reflexivity.
Qed.





Lemma contains_In (xs : list string) (x : string) :
  contains xs x = true <-> In x xs.
Proof. apply isin_In. Qed.

Lemma unique_from_In (seen xs : list string) (x : string) :
  In x (unique_from seen xs) <-> In x xs /\ ~ In x seen.
Proof.
  revert seen. induction xs as [|y ys IH]; intros seen; simpl.
  - tauto.
  - destruct (contains seen y) eqn:E.
    + apply contains_In in E. rewrite IH. split.
      * intros [H1 H2]. auto.
      * intros [[<-|H1] H2]; [contradiction | auto].
    + assert (Hy : ~ In y seen).
      { intros H. apply contains_In in H. congruence. }
      simpl. rewrite IH. simpl. split.
      * intros [<-|[H1 H2]]; auto.
      * intros [[<-|H1] H2]; auto.
        destruct (string_dec y x) as [<-|Hne]; auto.
        right. split; auto. intros [H|H]; auto.
Qed.

Lemma unique_from_NoDup (seen xs : list string) :
  NoDup (unique_from seen xs).
Proof.
  revert seen. induction xs as [|y ys IH]; intros seen; simpl.
  - constructor.
  - destruct (contains seen y); auto.
    constructor; auto.
    rewrite unique_from_In. intros [_ H]. apply H. now left.
Qed.

Lemma insert_str_perm (x : string) (l : list string) :
  Permutation (insert_str x l) (x :: l).
Proof.
  induction l as [|h t IH]; simpl; auto.
  destruct (String.leb x h); auto.
  rewrite IH. apply perm_swap.
Qed.

Lemma sorted_perm (xs : list string) : Permutation (sorted xs) xs.
Proof.
  induction xs as [|x xs IH]; simpl; auto.
  rewrite insert_str_perm. now constructor.
Qed.

Lemma insert_str_in_order (x : string) (l : list string) :
  in_order l -> in_order (insert_str x l).
Proof.
  unfold in_order. induction l as [|h t IH]; intros Hs; simpl.
  - repeat constructor.
  - inversion Hs as [|h' t' Ht Hhd]; subst.
    destruct (String.leb x h) eqn:E.
    + constructor; auto.
    + assert (Hhx : String.leb h x = true).
      { destruct (String.leb_total x h); congruence. }
      constructor; auto.
      destruct t as [|h2 t2]; simpl.
      * now constructor.
      * destruct (String.leb x h2); constructor; auto.
        now inversion Hhd.
Qed.

Lemma sorted_in_order (xs : list string) : in_order (sorted xs).
Proof.
  induction xs as [|x xs IH]; simpl.
  - constructor.
  - now apply insert_str_in_order.
Qed.

(** X13.  The food selector of the page offers exactly the names of the
    loaded dataset, each once and in code-point order; it allows five
    entries, and the entries it pre-selects, the names of the first three
    records, are at most three and all among its options. *)
Theorem main_food_selector (src : Source) (df : DataFrame)
    (sel : list string) (n : NutrientKind) :
  loads src df ->
  exists options default,
    multiselects (page src sel n) = [(options, default, 5%nat)] /\
    (forall x, In x options <-> occurs df x) /\
    NoDup options /\
    in_order options /\
    default = firstn 3 (map Food_Name (rows df)) /\
    (List.length default <= 3)%nat /\
    incl default options.
Proof.
  intros Hload.
  destruct (loads_inv _ _ Hload) as [raw [-> ->]].
  set (df := dropna (strip_columns raw)).
  exists (sorted (unique (map Food_Name (rows df)))),
         (firstn 3 (map Food_Name (rows df))).
  assert (Hopt : forall x,
             In x (sorted (unique (map Food_Name (rows df))))
             <-> In x (map Food_Name (rows df))).
  { intros x. split.
    - intros H. apply (Permutation_in x (sorted_perm _)) in H.
      now apply unique_from_In in H.
    - intros H. apply (Permutation_in x (Permutation_sym (sorted_perm _))).
      apply unique_from_In. split; auto. }
  split; [|split; [|split; [|split; [|split; [|split]]]]].
  - unfold page. destruct sel as [|food rest].
    + rewrite main_unselected. unfold page_unselected, top_calls.
      now destruct (create_enhanced_top_performers _ _).
    + destruct (main_selected raw food rest n) as [radar [_ ->]].
      unfold page_selected, top_calls.
      now destruct (create_enhanced_top_performers _ _).
  - intros x. rewrite Hopt, in_map_iff. unfold occurs. split.
    + intros [r [Hn Hr]]. eauto.
    + intros [r [Hr Hn]]. eauto.
  - apply (Permutation_NoDup (Permutation_sym (sorted_perm _))).
    apply unique_from_NoDup.
  - apply sorted_in_order.
  - reflexivity.
  - apply firstn_le_length.
  - intros x Hx. apply Hopt.
    rewrite <- (firstn_skipn 3 (map Food_Name (rows df))).
    apply in_or_app. now left.
Qed.

Lemma main_food_selector_witness :
  loads (Table gappy_table) two_foods /\
  exists options default,
    multiselects (page (Table gappy_table) [] Protein)
    = [(options, default, 5%nat)] /\
    incl default options.
Proof.
  assert (L : loads (Table gappy_table) two_foods) by reflexivity.
  split; [exact L|].
  destruct (main_food_selector _ _ [] Protein L)
    as [options [default [H1 [_ [_ [_ [_ [_ H2]]]]]]]].
  exists options, default. auto.
Defined.

End Page.

(** ** The page: statistics, table of the selection, scale *)

Section PageNumbers.

Import Samples.

Lemma smaller_cases (m y : Q) :
  (m <= y /\ smaller m y = m) \/ (y < m /\ smaller m y = y).
Proof.
  unfold smaller. destruct (Qle_bool m y) eqn:E.
  - left. split; auto. now apply Qle_bool_iff.
  - right. split; auto. apply Qnot_le_lt. intros H.
    apply Qle_bool_iff in H. congruence.
Qed.

Lemma fold_smaller_spec (qs : list Q) (c : Q) :
  In (fold_left smaller qs c) (c :: qs) /\
  forall y, In y (c :: qs) -> fold_left smaller qs c <= y.
Proof.
  revert c. induction qs as [|q qs IH]; intros c; simpl.
  - split; [now left|]. intros y [<-|[]]. apply Qle_refl.
  - destruct (IH (smaller c q)) as [Hin Hlb]. split.
    + destruct Hin as [Hin|Hin]; [|now right; right].
      rewrite <- Hin.
      destruct (smaller_cases c q) as [[_ ->]|[_ ->]]; [now left|now right; left].
    + assert (Hc : smaller c q <= c /\ smaller c q <= q).
      { destruct (smaller_cases c q) as [[H ->]|[H ->]]; split;
          auto using Qle_refl, Qlt_le_weak. }
      intros y [<-|[<-|Hy]].
      * eapply Qle_trans; [|apply Hc]. apply Hlb. now left.
      * eapply Qle_trans; [|apply Hc]. apply Hlb. now left.
      * apply Hlb. now right.
Qed.

Lemma series_max_largest (col : list Q) :
  match col with
  | [] => series_max col = NaN
  | _ :: _ => exists m, series_max col = Some m /\ largest_of col m
  end.
Proof.
  destruct col as [|x rest]; [reflexivity|].
  exists (fold_left larger rest x). split; [reflexivity|].
  apply fold_larger_spec.
Qed.

Lemma series_min_smallest (col : list Q) :
  match col with
  | [] => series_min col = NaN
  | _ :: _ => exists m, series_min col = Some m /\ smallest_of col m
  end.
Proof.
  destruct col as [|x rest]; [reflexivity|].
  exists (fold_left smaller rest x). split; [reflexivity|].
  apply fold_smaller_spec.
Qed.

(** X14.  The quick statistics are shown only when no food is selected.
    They are, in this order, the number of records of the dataset, the
    largest protein value, the largest fibre value and the smallest
    carbohydrate value, each the value of some record; on a dataset
    without records the three values are NaN. *)
Theorem main_quick_stats (src : Source) (df : DataFrame)
    (n : NutrientKind) :
  loads src df ->
  (exists hp hf lc,
      metrics (page src [] n)
      = [("Total Vegetables", Count (List.length (rows df)));
         ("Highest Protein", Grams hp);
         ("Highest Fiber", Grams hf);
         ("Lowest Carbs", Grams lc)] /\
      match rows df with
      | [] => hp = NaN /\ hf = NaN /\ lc = NaN
      | _ :: _ =>
          exists a b c,
            hp = Some a /\ largest_of (map prot_g (rows df)) a /\
            hf = Some b /\ largest_of (map tot_fib_g (rows df)) b /\
            lc = Some c /\ smallest_of (map carb_g (rows df)) c
      end) /\
  (forall food rest, metrics (page src (food :: rest) n) = []).
Proof.
  intros Hload.
  destruct (loads_inv _ _ Hload) as [raw [-> ->]].
  set (df := dropna (strip_columns raw)).
  split.
  - exists (series_max (map prot_g (rows df))),
           (series_max (map tot_fib_g (rows df))),
           (series_min (map carb_g (rows df))).
    split.
    { unfold page. rewrite main_unselected.
      unfold page_unselected, top_calls.
      now destruct (create_enhanced_top_performers _ _). }
    pose proof (series_max_largest (map prot_g (rows df))) as Hp.
    pose proof (series_max_largest (map tot_fib_g (rows df))) as Hf.
    pose proof (series_min_smallest (map carb_g (rows df))) as Hc.
    destruct (rows df) as [|r rs]; [auto|].
    cbn [map] in *.
    destruct Hp as [a [Ha Hla]]. destruct Hf as [b [Hb Hlb]].
    destruct Hc as [c [Hc Hlc]].
    exists a, b, c. auto 7.
  - intros food rest. unfold page.
    destruct (main_selected raw food rest n) as [radar [_ ->]].
    unfold page_selected, top_calls.
    now destruct (create_enhanced_top_performers _ _).
Qed.

Lemma main_quick_stats_witness :
  loads (Table gappy_table) two_foods /\
  forall food rest,
    metrics (page (Table gappy_table) (food :: rest) Carbs) = [].
Proof.
  assert (L : loads (Table gappy_table) two_foods) by reflexivity.
  split; [exact L|].
  exact (proj2 (main_quick_stats _ _ Carbs L)).
Defined.

Lemma round1_rounds (x : Q) : rounds x (round1 x).
Proof.
  unfold rounds, round1.
  set (scaled := x * 10). set (lo := Qfloor scaled).
  assert (H0 : inject_Z lo <= scaled) by apply Qfloor_le.
  assert (H1 : scaled < inject_Z lo + 1).
  { pose proof (Qlt_floor scaled) as H. fold lo in H.
    now rewrite inject_Z_plus in H. }
  unfold scaled in *.
  assert (Hdiv : forall z, z / 10 == z * (1 # 10)) by (intros z; field).
  destruct (Qle_bool (x * 10 - inject_Z lo) (1 # 2)) eqn:E.
  - apply Qle_bool_iff in E.
    destruct (Qeq_bool (x * 10 - inject_Z lo) (1 # 2)) eqn:E2.
    + apply Qeq_bool_iff in E2. destruct (Z.even lo).
      * rewrite Hdiv. split; lra.
      * rewrite Hdiv, inject_Z_plus. change (inject_Z 1) with 1.
        split; lra.
    + rewrite Hdiv. split; lra.
  - assert (H2 : 1 # 2 < x * 10 - inject_Z lo).
    { apply Qnot_le_lt. intros H. apply Qle_bool_iff in H. congruence. }
    rewrite Hdiv, inject_Z_plus. change (inject_Z 1) with 1. split; lra.
Qed.

Lemma isin_ext (sel sel' : list string) :
  (forall x, In x sel <-> In x sel') ->
  forall cell, isin sel cell = isin sel' cell.
Proof.
  intros H cell. apply eq_true_iff_eq. rewrite !isin_In. apply H.
Qed.

(** X15.  With a selection the page shows one table.  It has one line for
    each record of the dataset that bears a selected name, in the order of
    the dataset, not of the selection; a line gives the name and the four
    nutrient values, each rounded to within a twentieth.  The table is the
    same for two selections of the same names. *)
Theorem main_comparison_table (src : Source) (df : DataFrame)
    (sel : list string) (n : NutrientKind) :
  loads src df ->
  sel <> [] ->
  exists body,
    tables (page src sel n) = [body] /\
    Forall2 (fun r line =>
               fst line = Food_Name r /\
               Forall2 rounds (nutrient_values r) (snd line))
            (filter (fun r => isin sel (Food_Name r)) (rows df)) body /\
    forall sel',
      sel' <> [] -> (forall x, In x sel <-> In x sel') ->
      tables (page src sel' n) = [body].
Proof.
  intros Hload Hne.
  destruct (loads_inv _ _ Hload) as [raw [-> ->]].
  set (df := dropna (strip_columns raw)).
  assert (Htab : forall s, s <> [] ->
                           tables (page (Table raw) s n) = [comparison_df df s]).
  { intros [|food rest] Hs; [contradiction|]. unfold page.
    destruct (main_selected raw food rest n) as [radar [_ ->]].
    unfold page_selected, top_calls.
    now destruct (create_enhanced_top_performers _ _). }
  exists (comparison_df df sel). split; [now apply Htab|]. split.
  - unfold comparison_df.
    induction (filter (fun r => isin sel (Food_Name r)) (rows df))
      as [|r rs IH]; simpl; constructor; auto.
    split; [reflexivity|]. simpl.
    repeat constructor; apply round1_rounds.
  - intros sel' Hne' Hsame. rewrite (Htab sel' Hne'). f_equal.
    unfold comparison_df. f_equal. apply filter_ext.
    intros r. symmetry. now apply isin_ext.
Qed.

Lemma main_comparison_table_witness :
  loads (Table gappy_table) two_foods /\
  ["Lentils"; "Spinach"] <> [] /\
  exists body,
    tables (page (Table gappy_table) ["Lentils"; "Spinach"] Fat) = [body] /\
    map fst body = ["Spinach"; "Lentils"].
Proof.
  assert (L : loads (Table gappy_table) two_foods) by reflexivity.
  assert (N : ["Lentils"; "Spinach"] <> []) by discriminate.
  split; [exact L|]. split; [exact N|].
  destruct (main_comparison_table _ _ _ Fat L N) as [body [H1 _]].
  exists body. split; [exact H1|].
  vm_compute in H1. inversion H1. reflexivity.
Defined.

(** X16.  The scale of the radar chart depends on which foods are
    selected, not on their order or on repetitions: two non-empty
    selections of the same names give figures with the same layout. *)
Theorem create_radar_chart_scale_of_names (df : DataFrame)
    (sel sel' : list string) :
  sel <> [] -> sel' <> [] ->
  (forall x, In x sel <-> In x sel') ->
  exists fig fig',
    create_radar_chart sel df = Ok fig /\
    create_radar_chart sel' df = Ok fig' /\
    layout fig = layout fig'.
Proof.
  intros Hne Hne' Hsame.
  destruct sel as [|f rest]; [contradiction|].
  destruct sel' as [|f' rest']; [contradiction|].
  destruct (create_radar_chart_drawn df f rest) as [c [Hc Hfig]].
  destruct (create_radar_chart_drawn df f' rest') as [c' [Hc' Hfig']].
  rewrite (filter_ext _ _ (fun r => isin_ext _ _ Hsame (Food_Name r))) in Hc.
  rewrite Hc in Hc'. inversion Hc'; subst c'.
  eexists; eexists. split; [exact Hfig|]. split; [exact Hfig'|].
  reflexivity.
Qed.

Lemma create_radar_chart_scale_of_names_witness :
  ["Spinach"; "Lentils"] <> [] /\ ["Lentils"; "Spinach"; "Lentils"] <> [] /\
  exists fig fig',
    create_radar_chart ["Spinach"; "Lentils"] two_foods = Ok fig /\
    create_radar_chart ["Lentils"; "Spinach"; "Lentils"] two_foods = Ok fig' /\
    layout fig = layout fig'.
Proof.
  assert (N : ["Spinach"; "Lentils"] <> []) by discriminate.
  assert (N' : ["Lentils"; "Spinach"; "Lentils"] <> []) by discriminate.
  split; [exact N|]. split; [exact N'|].
  apply (create_radar_chart_scale_of_names two_foods _ _ N N').
  intros x. simpl. tauto.
Defined.

End PageNumbers.

(** ** Names that share a label *)

Section SharedLabels.

Lemma append_same_tail (a b c : string) :
  String.length a = String.length b -> a ++ c = b ++ c -> a = b.
Proof.
  revert b. induction a as [|x a IH]; intros [|y b] Hlen H;
    simpl in *; try discriminate; auto.
  inversion H; subst. f_equal. apply IH; auto.
Qed.

Lemma slice_to_length (n : nat) (s : string) :
  (n <= len s)%nat -> len (slice_to n s) = n.
Proof.
  intros H. destruct (slice_to_split n s H) as [cut [_ Hl]]. exact Hl.
Qed.

(** X17.  In the top-performers chart two foods get the same label only
    if they have the same name, or if both names are longer than 25
    characters and agree on their first 25; and two such long names
    always get the same label.  So names of at most 25 characters are
    never confused, and long names with a common beginning always are. *)
Theorem Display_Name_shared (x y : string) :
  Display_Name x = Display_Name y <->
  x = y \/
  ((25 < len x)%nat /\ (25 < len y)%nat /\ slice_to 25 x = slice_to 25 y).
Proof.
  unfold Display_Name.
  destruct (Nat.ltb_spec 25 (len x)) as [Hx|Hx];
    destruct (Nat.ltb_spec 25 (len y)) as [Hy|Hy].
  - split.
    + intros H. right. repeat split; auto.
      apply (append_same_tail _ _ "..."); auto.
      change (len (slice_to 25 x) = len (slice_to 25 y)).
      rewrite !slice_to_length; auto; lia.
    + intros [->|[_ [_ ->]]]; reflexivity.
  - split.
    + intros H. exfalso.
      assert (E : len (slice_to 25 x ++ "...") = len y) by now rewrite H.
      unfold len in E. rewrite length_append in E.
      change (String.length (slice_to 25 x)) with (len (slice_to 25 x)) in E.
      rewrite slice_to_length in E by lia. simpl in E. unfold len in Hy. lia.
    + intros [->|[_ [H _]]]; lia.
  - split.
    + intros H. exfalso.
      assert (E : len x = len (slice_to 25 y ++ "...")) by now rewrite H.
      unfold len in E. rewrite length_append in E.
      change (String.length (slice_to 25 y)) with (len (slice_to 25 y)) in E.
      rewrite slice_to_length in E by lia. simpl in E. unfold len in Hx. lia.
    + intros [->|[H _]]; lia.
  - split; [now left|]. intros [->|[H _]]; [reflexivity | lia].
Qed.

End SharedLabels.
